(** * TradeDeskCLI: a shallow embedding of [tradedeskcli.py]

    The program is a thin command-line client: an optional name lookup
    against a public search endpoint ([lookup_ticker_by_name]), a price
    fetch with a fallback chain ([get_current_price]) and a presentation
    branch ([search_command]).

    The external collaborators (the HTTP library, the market-data library,
    the console) are modelled as an oracle [world] that fixes the outcome of
    every external call; the program is a function of that oracle, written
    in a small trace-and-exception monad so that both the value it computes
    and the calls it performs can be observed. *)

From Stdlib Require Import ZArith List String Ascii Bool Lia.
From Stdlib Require Import Floats.SpecFloat.
From Stdlib Require DecimalString.
Import ListNotations.

Local Open Scope string_scope.
Local Open Scope Z_scope.

(** ** Python floats *)

(** A Python [float] is an IEEE 754 binary64 value; it is represented by
    the inductive [spec_float] of the standard library (sign, mantissa,
    binary exponent), with precision 53 and exponent bound 1024. *)
Module PyFloat.

Definition float := spec_float.

Definition prec : Z := 53.
Definition emax : Z := 1024.

(** [bool(x)] for a float: zero (of either sign) is falsy, NaN is truthy. *)
Definition truthy (x : float) : bool :=
  match x with
  | S754_zero _ => false
  | _ => true
  end.

(** [x != x], the test behind pandas' [dropna]. *)
Definition is_nan (x : float) : bool :=
  match x with
  | S754_nan => true
  | _ => false
  end.

(** The float nearest to the integer [n]. *)
Definition of_Z (n : Z) : float := binary_normalize prec emax n 0 false.

(** The float nearest to the rational [n / d], as the literal [n/d]
    written in decimal would be read. *)
Definition of_ratio (n d : Z) : float := SFdiv prec emax (of_Z n) (of_Z d).

Definition string_of_Z (n : Z) : string :=
  DecimalString.NilZero.string_of_int (Z.to_int n).

Fixpoint zeros (n : nat) : string :=
  match n with
  | O => ""
  | S n' => String "0" (zeros n')
  end.

(** *** Shortest round-trip digits

    [repr] prints the shortest decimal string that reads back as the same
    float, and among those the one nearest to it.  The float [m * 2^e] is
    the image of the interval between the midpoints with its two
    neighbours; the end points belong to it when [m] is even (ties to
    even).  Everything is kept as integers over the common scale
    [2^(e-2)]. *)

(** Numerators of [lo], [x], [hi] and the binary exponent they share. *)
Definition bounds (m : positive) (e : Z) : Z * Z * Z * Z :=
  let x := 4 * Zpos m in
  let below :=
    if (Zpos m =? 2 ^ (prec - 1)) && (3 - emax - prec <? e) then 1 else 2 in
  (x - below, x, x + 2, e - 2).

(** [n * 2^e2 * 10^(-s)] as a fraction of integers. *)
Definition scaled (n e2 s : Z) : Z * Z :=
  let '(p, q) := if 0 <=? e2 then (n * 2 ^ e2, 1) else (n, 2 ^ (- e2)) in
  if 0 <=? s then (p, q * 10 ^ s) else (p * 10 ^ (- s), q).

(** The decimal point position: the least [k] with [x < 10^k]. *)
Fixpoint find_decpt (fuel : nat) (n e2 k : Z) : Z :=
  match fuel with
  | O => k
  | S fuel' =>
      let '(p, q) := scaled n e2 k in
      if p <? q then k else find_decpt fuel' n e2 (k + 1)
  end.

Definition decpt_of (n e2 : Z) : Z := find_decpt 700 n e2 (-330).

(** Is the [nd]-digit decimal [c * 10^s] read back as the float? *)
Definition in_interval (even : bool) (lo hi e2 s c : Z) : bool :=
  let '(pl, q) := scaled lo e2 s in
  let '(ph, _) := scaled hi e2 s in
  if even then (pl <=? c * q) && (c * q <=? ph)
  else (pl <? c * q) && (c * q <? ph).

(** The best candidate with [nd] significant digits, if one reads back. *)
Definition candidate (m : positive) (e : Z) (k nd : Z) : option Z :=
  let '(lo, x, hi, e2) := bounds m e in
  let even := Z.even (Zpos m) in
  let s := k - nd in
  let '(p, q) := scaled x e2 s in
  let c := p / q in
  let down := in_interval even lo hi e2 s c in
  let up := in_interval even lo hi e2 s (c + 1) in
  match down, up with
  | true, true =>
      let dl := p - c * q in
      let du := (c + 1) * q - p in
      if dl <? du then Some c
      else if du <? dl then Some (c + 1)
      else Some (if Z.even c then c else c + 1)
  | true, false => Some c
  | false, true => Some (c + 1)
  | false, false => None
  end.

Fixpoint shortest (fuel : nat) (m : positive) (e : Z) (k nd : Z) : Z * Z :=
  match fuel with
  | O => (0, nd)
  | S fuel' =>
      match candidate m e k nd with
      | Some c => (c, nd)
      | None => shortest fuel' m e k (nd + 1)
      end
  end.

(** The digit string and the decimal point position of [m * 2^e]: the
    value is [0.DIGITS * 10^decpt]. *)
Definition digits_of (m : positive) (e : Z) : string * Z :=
  let '(_, x, _, e2) := bounds m e in
  let k := decpt_of x e2 in
  let '(c, nd) := shortest 17 m e k 1 in
  if c =? 10 ^ nd then ("1", k + 1) else (string_of_Z c, k).

(** *** [float.__repr__] *)

Definition exponent_suffix (ex : Z) : string :=
  let a := string_of_Z (Z.abs ex) in
  (if ex <? 0 then "e-" else "e+") ++ (if Z.abs ex <? 10 then "0" else "") ++ a.

Definition format_repr (ds : string) (decpt : Z) : string :=
  let len := Z.of_nat (String.length ds) in
  if (decpt <=? -4) || (16 <? decpt) then
    match ds with
    | EmptyString => ""
    | String d EmptyString => String d (exponent_suffix (decpt - 1))
    | String d rest => String d ("." ++ rest ++ exponent_suffix (decpt - 1))
    end
  else if decpt <=? 0 then
    "0." ++ zeros (Z.to_nat (- decpt)) ++ ds
  else if decpt <? len then
    substring 0 (Z.to_nat decpt) ds ++ "." ++
    substring (Z.to_nat decpt) (Z.to_nat (len - decpt)) ds
  else
    ds ++ zeros (Z.to_nat (decpt - len)) ++ ".0".

Definition sign_prefix (s : bool) : string := if s then "-" else "".

Definition repr (x : float) : string :=
  match x with
  | S754_zero s => sign_prefix s ++ "0.0"
  | S754_infinity s => sign_prefix s ++ "inf"
  | S754_nan => "nan"
  | S754_finite s m e =>
      let '(ds, k) := digits_of m e in sign_prefix s ++ format_repr ds k
  end.

(** *** [format(x, ",.4f")] *)

(** Digits grouped by three from the right. *)
Fixpoint group_rev (l : list ascii) (n : nat) : list ascii :=
  match l with
  | [] => []
  | c :: l' =>
      match n with
      | O => ","%char :: c :: group_rev l' 2
      | S n' => c :: group_rev l' n'
      end
  end.

Definition thousands (s : string) : string :=
  string_of_list_ascii
    (rev (group_rev (rev (list_ascii_of_string s)) 3)).

Definition pad4 (n : Z) : string :=
  let s := string_of_Z n in
  zeros (4 - String.length s) ++ s.

(** The exact value rounded to four decimals, ties to even. *)
Definition round4 (m : positive) (e : Z) : Z :=
  let '(p, q) := scaled (Zpos m) e (-4) in
  let c := p / q in
  let r := 2 * (p - c * q) in
  if r <? q then c
  else if q <? r then c + 1
  else if Z.even c then c else c + 1.

Definition format_comma_4f (x : float) : string :=
  match x with
  | S754_zero s => sign_prefix s ++ "0.0000"
  | S754_infinity s => sign_prefix s ++ "inf"
  | S754_nan => "nan"
  | S754_finite s m e =>
      let r := round4 m e in
      sign_prefix s ++ thousands (string_of_Z (r / 10000)) ++ "." ++
      pad4 (r mod 10000)
  end.

End PyFloat.

(** ** Python values *)

(** The values that flow through the program: what [resp.json()] can
    return, the command-line strings, the prices.  A [dict] is an
    association list in insertion order (the order [json.dumps] prints);
    a [str] is a [string] whose characters are code points below 256. *)
#[warnings="-register-all"]
Inductive pyval : Type :=
  | PNone
  | PBool (b : bool)
  | PInt (n : Z)
  | PFloat (x : PyFloat.float)
  | PStr (s : string)
  | PList (l : list pyval)
  | PDict (d : list (string * pyval)).

(** [bool(v)]. *)
Definition truthy (v : pyval) : bool :=
  match v with
  | PNone => false
  | PBool b => b
  | PInt n => negb (n =? 0)
  | PFloat x => PyFloat.truthy x
  | PStr s => negb (s =? "")%string
  | PList l => match l with [] => false | _ => true end
  | PDict d => match d with [] => false | _ => true end
  end.

(** [a or b]: the first operand when it is truthy, else the second. *)
Definition py_or (a b : pyval) : pyval := if truthy a then a else b.

(** [v is not None]. *)
Definition is_not_none (v : pyval) : bool :=
  match v with
  | PNone => false
  | _ => true
  end.

Fixpoint assoc (k : string) (d : list (string * pyval)) : option pyval :=
  match d with
  | [] => None
  | (k', v) :: d' => if (k =? k')%string then Some v else assoc k d'
  end.

(** An optional command-line string as a Python value. *)
Definition of_option (o : option string) : pyval :=
  match o with
  | None => PNone
  | Some s => PStr s
  end.

(** ** [json.dumps(v, indent=2)] *)
Module Json.

(** The one-character string holding a double quote (code 34). *)
Definition dquote : string := String (ascii_of_N 34) "".

Definition hex_digit (n : N) : ascii :=
  match n with
  | 0 => "0" | 1 => "1" | 2 => "2" | 3 => "3" | 4 => "4" | 5 => "5"
  | 6 => "6" | 7 => "7" | 8 => "8" | 9 => "9" | 10 => "a" | 11 => "b"
  | 12 => "c" | 13 => "d" | 14 => "e" | _ => "f"
  end%N%char.

(** One character under [ensure_ascii]: printable ASCII is kept, the
    quote and the backslash are escaped, the rest is a short escape or
    [\u00xx]. *)
Definition escape_char (c : ascii) : string :=
  let n := N_of_ascii c in
  if (n =? 34)%N then "\" ++ dquote
  else if (n =? 92)%N then "\\"
  else if (n =? 8)%N then "\b"
  else if (n =? 9)%N then "\t"
  else if (n =? 10)%N then "\n"
  else if (n =? 12)%N then "\f"
  else if (n =? 13)%N then "\r"
  else if ((32 <=? n) && (n <=? 126))%N then String c ""
  else "\u00" ++ String (hex_digit (n / 16)) (String (hex_digit (n mod 16)) "").

Fixpoint escape (s : string) : string :=
  match s with
  | EmptyString => ""
  | String c s' => escape_char c ++ escape s'
  end.

Definition quote (s : string) : string := dquote ++ escape s ++ dquote.

Definition float_str (x : PyFloat.float) : string :=
  match x with
  | S754_nan => "NaN"
  | S754_infinity false => "Infinity"
  | S754_infinity true => "-Infinity"
  | _ => PyFloat.repr x
  end.

Definition newline : string := String (ascii_of_N 10) "".

Fixpoint spaces (n : nat) : string :=
  match n with
  | O => ""
  | S n' => String " " (spaces n')
  end.

(** A line break followed by the indentation of nesting level [lvl]. *)
Definition newline_indent (lvl : nat) : string := newline ++ spaces (2 * lvl).

Fixpoint encode (lvl : nat) (v : pyval) {struct v} : string :=
  match v with
  | PNone => "null"
  | PBool true => "true"
  | PBool false => "false"
  | PInt n => PyFloat.string_of_Z n
  | PFloat x => float_str x
  | PStr s => quote s
  | PList [] => "[]"
  | PList (x :: xs) =>
      "[" ++ newline_indent (S lvl) ++ encode (S lvl) x ++
      (fix items (l : list pyval) : string :=
         match l with
         | [] => ""
         | y :: l' => "," ++ newline_indent (S lvl) ++ encode (S lvl) y ++ items l'
         end) xs ++
      newline_indent lvl ++ "]"
  | PDict [] => "{}"
  | PDict ((k, x) :: xs) =>
      "{" ++ newline_indent (S lvl) ++ quote k ++ ": " ++ encode (S lvl) x ++
      (fix items (l : list (string * pyval)) : string :=
         match l with
         | [] => ""
         | (k', y) :: l' =>
             "," ++ newline_indent (S lvl) ++ quote k' ++ ": " ++
             encode (S lvl) y ++ items l'
         end) xs ++
      newline_indent lvl ++ "}"
  end.

Definition dumps_indent2 (v : pyval) : string := encode 0 v.

End Json.

(** ** Effects: a trace of external calls, and exceptions *)

(** The table handed to the console.  The presenter is an external
    collaborator: the table is kept as data and printing it is an event
    whose outcome the world decides. *)
Record Column := {
  header : string;
  style : option string;
  justify : option string;
}.

Record Table := {
  title : string;
  columns : list Column;
  rows : list (list pyval);
}.

(** The calls the program makes to its collaborators, in order. *)
Inductive event : Type :=
  | EvRequestsGet (url : string) (params : list (string * pyval)) (timeout : Z)
  | EvTicker (ticker : pyval)
  | EvFastInfo
  | EvHistory (period interval : string)
  | EvEcho (msg : string)
  | EvConsolePrint (t : Table).

(** What a [raise] carries: [typer.Exit(code)] ends the process with that
    code; every other exception is an instance of [Exception], kept by
    its class name. *)
Inductive exn : Type :=
  | PyExc (name : string)
  | TyperExit (code : Z).

Inductive result (A : Type) : Type :=
  | Ok (a : A)
  | Raise (e : exn).

Arguments Ok {A} a.
Arguments Raise {A} e.

(** A computation: the events it performed, then how it ended. *)
Definition M (A : Type) : Type := list event * result A.

Definition ret {A} (a : A) : M A := ([], Ok a).

Definition bind {A B} (m : M A) (f : A -> M B) : M B :=
  match m with
  | (tr, Ok a) => let '(tr', r) := f a in ((tr ++ tr')%list, r)
  | (tr, Raise e) => (tr, Raise e)
  end.

Definition raise {A} (e : exn) : M A := ([], Raise e).

Definition emit (e : event) : M unit := ([e], Ok tt).

(** [try: body / except Exception: handler].  [typer.Exit] derives from
    [RuntimeError], so the clause catches every [exn] of the model. *)
Definition try_except {A} (body : M A) (handler : M A) : M A :=
  match body with
  | (tr, Ok a) => (tr, Ok a)
  | (tr, Raise _) => let '(tr', r) := handler in ((tr ++ tr')%list, r)
  end.

Declare Scope py_scope.
Delimit Scope py_scope with py.
Notation "x <- c ;; k" := (bind c (fun x => k))
  (at level 61, c at next level, right associativity) : py_scope.
Notation "c ;; k" := (bind c (fun _ => k))
  (at level 61, right associativity) : py_scope.
Local Open Scope py_scope.

Definition trace {A} (m : M A) : list event := fst m.
Definition outcome {A} (m : M A) : result A := snd m.

(** The exit status of the process for a run of the command: a normal
    return and [typer.Exit(code)] give 0 and [code]; an exception that
    escapes gives 1. *)
Definition exit_code (m : M unit) : Z :=
  match outcome m with
  | Ok _ => 0
  | Raise (TyperExit c) => c
  | Raise (PyExc _) => 1
  end.

(** ** The external world *)

(** [requests.get]: a transport error, or a response with its status code
    and what [resp.json()] gives ([None] when the body does not parse). *)
Record Response := {
  status_code : Z;
  json_body : option pyval;
}.

Inductive http_outcome : Type :=
  | GetRaises
  | GetResponse (r : Response).

(** An entry of [fast_info]: reading it fetches lazily and may raise;
    otherwise it is a float or [None]. *)
Inductive fast_field : Type :=
  | FieldRaises
  | FieldIs (v : option PyFloat.float).

(** [t.fast_info]: the property raises, or gives a mapping. *)
Inductive fast_outcome : Type :=
  | FastInfoRaises
  | FastInfoIs (fi : list (string * fast_field)).

(** The frame [t.history] returns, one entry per row: only its [Close]
    column is read, and a missing close is a NaN.  The frame is [empty]
    when it has no row. *)
Record DataFrame := {
  Close : list PyFloat.float;
}.

Inductive hist_outcome : Type :=
  | HistoryRaises
  | HistoryIs (df : DataFrame).

(** A [yf.Ticker] object. *)
Record TickerObj := {
  fast_info : fast_outcome;
  history : string -> string -> hist_outcome;
}.

(** [console.print(table)]: the console renders the table, reading its
    text as markup; it returns, or raises (an unmatched closing tag in a
    cell is a [MarkupError]).  The rendering is not modelled: whether the
    call raises, and what, is the world's. *)
Inductive print_outcome : Type :=
  | PrintReturns
  | PrintRaises (name : string).

Record world := {
  requests_get : string -> list (string * pyval) -> Z -> http_outcome;
  yf_Ticker : pyval -> option TickerObj;
  console_print : Table -> print_outcome;
}.

(** ** Python operations the program uses *)

(** [v.get(k)]: only a [dict] has the method. *)
Definition py_get (v : pyval) (k : string) : M pyval :=
  match v with
  | PDict d => ret (match assoc k d with Some x => x | None => PNone end)
  | _ => raise (PyExc "AttributeError")
  end.

(** [v[k]] for a string key. *)
Definition py_getitem (v : pyval) (k : string) : M pyval :=
  match v with
  | PDict d =>
      match assoc k d with
      | Some x => ret x
      | None => raise (PyExc "KeyError")
      end
  | _ => raise (PyExc "TypeError")
  end.

(** [v[0]]: the first element of a list, the first character of a
    string; a [dict] with string keys has no key [0]. *)
Definition py_index0 (v : pyval) : M pyval :=
  match v with
  | PList (x :: _) => ret x
  | PList [] => raise (PyExc "IndexError")
  | PStr (String c _) => ret (PStr (String c ""))
  | PStr EmptyString => raise (PyExc "IndexError")
  | PDict _ => raise (PyExc "KeyError")
  | _ => raise (PyExc "TypeError")
  end.

(** [a or b] with [b] evaluated only when [a] is falsy. *)
Definition or_else (a b : M pyval) : M pyval :=
  x <- a ;; if truthy x then ret x else b.

(** ** [lookup_ticker_by_name] *)

Definition YAHOO_SEARCH_URL : string :=
  "https://query1.finance.yahoo.com/v1/finance/search".

Definition search_params (name : string) : list (string * pyval) :=
  [("q", PStr name); ("quotesCount", PInt 1); ("newsCount", PInt 0);
   ("listsCount", PInt 0)].

Definition call_requests_get (w : world) (url : string)
    (params : list (string * pyval)) (timeout : Z) : M Response :=
  emit (EvRequestsGet url params timeout) ;;
  match requests_get w url params timeout with
  | GetRaises => raise (PyExc "RequestException")
  | GetResponse r => ret r
  end.

(** [resp.raise_for_status()]: an error for the 4xx and 5xx codes. *)
Definition raise_for_status (r : Response) : M unit :=
  if (400 <=? status_code r) && (status_code r <? 600)
  then raise (PyExc "HTTPError")
  else ret tt.

Definition resp_json (r : Response) : M pyval :=
  match json_body r with
  | Some v => ret v
  | None => raise (PyExc "JSONDecodeError")
  end.

Definition lookup_ticker_by_name (w : world) (name : string) : M pyval :=
  try_except
    (resp <- call_requests_get w YAHOO_SEARCH_URL (search_params name) 10 ;;
     raise_for_status resp ;;
     data <- resp_json resp ;;
     quotes <- or_else (py_get data "quotes") (ret (PList [])) ;;
     if negb (truthy quotes) then ret PNone
     else
       q <- py_index0 quotes ;;
       symbol <- py_get q "symbol" ;;
       name' <- or_else (py_get q "shortname")
                  (or_else (py_get q "longname") (py_get q "symbol")) ;;
       type' <- py_get q "quoteType" ;;
       exchange <- py_get q "exchange" ;;
       score <- py_get q "score" ;;
       ret (PDict [("symbol", symbol); ("name", name'); ("type", type');
                   ("exchange", exchange); ("score", score)]))
    (ret PNone).

(** ** [get_current_price] *)

Definition call_Ticker (w : world) (ticker : pyval) : M TickerObj :=
  emit (EvTicker ticker) ;;
  match yf_Ticker w ticker with
  | None => raise (PyExc "Exception")
  | Some t => ret t
  end.

Definition get_fast_info (t : TickerObj) : M (list (string * fast_field)) :=
  emit EvFastInfo ;;
  match fast_info t with
  | FastInfoRaises => raise (PyExc "Exception")
  | FastInfoIs fi => ret fi
  end.

Fixpoint fi_assoc (k : string) (fi : list (string * fast_field))
    : option fast_field :=
  match fi with
  | [] => None
  | (k', v) :: fi' => if (k =? k')%string then Some v else fi_assoc k fi'
  end.

(** [bool(fi)], [k in fi] and [fi[k]]. *)
Definition fi_truthy (fi : list (string * fast_field)) : bool :=
  match fi with [] => false | _ => true end.

Definition fi_contains (k : string) (fi : list (string * fast_field)) : bool :=
  match fi_assoc k fi with Some _ => true | None => false end.

Definition fi_getitem (fi : list (string * fast_field)) (k : string)
    : M (option PyFloat.float) :=
  match fi_assoc k fi with
  | None => raise (PyExc "KeyError")
  | Some FieldRaises => raise (PyExc "Exception")
  | Some (FieldIs v) => ret v
  end.

Definition opt_truthy (v : option PyFloat.float) : bool :=
  match v with
  | None => false
  | Some x => PyFloat.truthy x
  end.

(** [float(v)]. *)
Definition py_float (v : option PyFloat.float) : M PyFloat.float :=
  match v with
  | Some x => ret x
  | None => raise (PyExc "TypeError")
  end.

Definition call_history (t : TickerObj) (period interval : string)
    : M DataFrame :=
  emit (EvHistory period interval) ;;
  match history t period interval with
  | HistoryRaises => raise (PyExc "Exception")
  | HistoryIs df => ret df
  end.

(** [df.empty], [series.dropna()] and [series.iloc[-1]]. *)
Definition empty (df : DataFrame) : bool :=
  match Close df with [] => true | _ => false end.

Definition dropna (l : list PyFloat.float) : list PyFloat.float :=
  filter (fun x => negb (PyFloat.is_nan x)) l.

Definition iloc_last (l : list PyFloat.float) : M PyFloat.float :=
  match rev l with
  | [] => raise (PyExc "IndexError")
  | x :: _ => ret x
  end.

(** The condition [fi and "last_price" in fi and fi["last_price"]]. *)
Definition fast_condition (fi : list (string * fast_field)) : M bool :=
  if fi_truthy fi then
    if fi_contains "last_price" fi then
      v <- fi_getitem fi "last_price" ;; ret (opt_truthy v)
    else ret false
  else ret false.

(** The inner [try]: [Some p] when it executes [return p], [None] when
    control leaves it without returning. *)
Definition fast_step (t : TickerObj) : M (option PyFloat.float) :=
  try_except
    (fi <- get_fast_info t ;;
     c <- fast_condition fi ;;
     if c then
       v <- fi_getitem fi "last_price" ;;
       p <- py_float v ;;
       ret (Some p)
     else ret None)
    (ret None).

(** [history(period="1d")] leaves the interval at its default, one day. *)
Definition get_current_price (w : world) (ticker : pyval)
    : M (option PyFloat.float) :=
  try_except
    (t <- call_Ticker w ticker ;;
     fast <- fast_step t ;;
     match fast with
     | Some p => ret (Some p)
     | None =>
         hist <- call_history t "1d" "1m" ;;
         if negb (empty hist) then
           p <- iloc_last (dropna (Close hist)) ;; ret (Some p)
         else
           hist <- call_history t "1d" "1d" ;;
           if negb (empty hist) then
             p <- iloc_last (dropna (Close hist)) ;; ret (Some p)
           else ret None
     end)
    (ret None).

(** ** [search_command] *)

Definition usage_message : string := "Provide --ticker or --name (see --help).".

(** The f-string [No results for name: "{name}".] *)
Definition no_results_message (name : string) : string :=
  "No results for name: " ++ Json.dquote ++ name ++ Json.dquote ++ ".".

(** The name to look up when [name and not ticker] holds. *)
Definition name_and_not_ticker (ticker name : option string) : option string :=
  match name with
  | Some n =>
      if truthy (PStr n) && negb (truthy (of_option ticker)) then Some n
      else None
  | None => None
  end.

Definition of_price (price : option PyFloat.float) : pyval :=
  match price with
  | Some p => PFloat p
  | None => PNone
  end.

(** The [dict] literal serialised in JSON mode. *)
Definition payload (ticker asset_name : pyval) (price : option PyFloat.float)
    : pyval :=
  PDict [("ticker", ticker); ("name", asset_name); ("price", of_price price);
         ("success", PBool (is_not_none (of_price price)))].

(** ** The console table *)

Definition new_table (title : string) : Table :=
  {| title := title; columns := []; rows := [] |}.

Definition add_column (tb : Table) (header : string)
    (style justify : option string) : Table :=
  {| title := title tb;
     columns := (columns tb ++
                 [{| header := header; style := style; justify := justify |}])%list;
     rows := rows tb |}.

(** A cell [add_row] accepts: a string, or [None] (stored as the empty
    string); any other value of the program is refused with
    [NotRenderableError]. *)
Definition cell_ok (v : pyval) : bool :=
  match v with
  | PStr _ | PNone => true
  | _ => false
  end.

Definition cell (v : pyval) : pyval :=
  match v with
  | PNone => PStr ""
  | _ => v
  end.

Definition add_row (tb : Table) (cells : list pyval) : M Table :=
  if forallb cell_ok cells then
    ret {| title := title tb; columns := columns tb;
           rows := (rows tb ++ [map cell cells])%list |}
  else raise (PyExc "NotRenderableError").

Definition call_console_print (w : world) (tb : Table) : M unit :=
  emit (EvConsolePrint tb) ;;
  match console_print w tb with
  | PrintReturns => ret tt
  | PrintRaises e => raise (PyExc e)
  end.

Definition search_command (w : world) (ticker name : option string)
    (json_out : bool) : M unit :=
  if negb (truthy (of_option ticker)) && negb (truthy (of_option name)) then
    emit (EvEcho usage_message) ;;
    raise (TyperExit 2)
  else
    rt <- match name_and_not_ticker ticker name with
          | Some n =>
              resolved <- lookup_ticker_by_name w n ;;
              missing <- (if negb (truthy resolved) then ret true
                          else s <- py_get resolved "symbol" ;;
                               ret (negb (truthy s))) ;;
              if missing then
                emit (EvEcho (no_results_message n)) ;;
                raise (TyperExit 1)
              else
                s <- py_getitem resolved "symbol" ;;
                ret (resolved, s)
          | None => ret (PNone, of_option ticker)
          end ;;
    let '(resolved, ticker) := rt in
    price <- get_current_price w ticker ;;
    named <- (if truthy resolved then
                n <- py_get resolved "name" ;; ret (truthy n)
              else ret false) ;;
    asset_name <- (if named then py_getitem resolved "name"
                   else ret (if negb (truthy (of_option name)) then ticker
                             else of_option name)) ;;
    if json_out then
      emit (EvEcho (Json.dumps_indent2 (payload ticker asset_name price))) ;;
      raise (TyperExit 0)
    else
      let table := new_table "TradedeskCLI – Price Lookup" in
      let table := add_column table "Name" (Some "bold") None in
      let table := add_column table "Ticker" None None in
      let table := add_column table "Current Price" None (Some "right") in
      table <- match price with
               | None =>
                   add_row table [asset_name; py_or ticker (PStr "-");
                                  PStr "[red]N/A[/red]"]
               | Some p =>
                   add_row table [asset_name; py_or ticker (PStr "-");
                                  PStr (PyFloat.format_comma_4f p)]
               end ;;
      call_console_print w table.


(** ** Reading a run *)

(** [d.get(k)] as a pure function: [None] when the key is missing or the
    value is no [dict]. *)
Definition dict_get (k : string) (v : pyval) : pyval :=
  match v with
  | PDict d => match assoc k d with Some x => x | None => PNone end
  | _ => PNone
  end.

(** The one request the resolver sends for [name]. *)
Definition search_request (name : string) : event :=
  EvRequestsGet YAHOO_SEARCH_URL (search_params name) 10.

(** The match the resolver builds from the first candidate [q]. *)
Definition match_of (q : list (string * pyval)) : pyval :=
  PDict [("symbol", dict_get "symbol" (PDict q));
         ("name", py_or (dict_get "shortname" (PDict q))
                    (py_or (dict_get "longname" (PDict q))
                       (dict_get "symbol" (PDict q))));
         ("type", dict_get "quoteType" (PDict q));
         ("exchange", dict_get "exchange" (PDict q));
         ("score", dict_get "score" (PDict q))].

(** The first candidate of a response body: the body is an object whose
    [quotes] entry is a list that starts with an object. *)
Definition first_candidate (body : pyval) : option (list (string * pyval)) :=
  match body with
  | PDict d =>
      match assoc "quotes" d with
      | Some (PList (PDict q :: _)) => Some q
      | _ => None
      end
  | _ => None
  end.

(** The 4xx and 5xx status codes. *)
Definition error_status (r : Response) : Prop :=
  400 <= status_code r < 600.

(** The fast current-price field when it is present and neither zero nor
    [None] (and reading it does not raise). *)
Definition fast_value (t : TickerObj) : option PyFloat.float :=
  match fast_info t with
  | FastInfoIs fi =>
      match fi_assoc "last_price" fi with
      | Some (FieldIs (Some x)) => if PyFloat.truthy x then Some x else None
      | _ => None
      end
  | FastInfoRaises => None
  end.

(** Reading the fast field raises. *)
Definition fast_raises (t : TickerObj) : Prop :=
  fast_info t = FastInfoRaises \/
  exists fi, fast_info t = FastInfoIs fi /\
             fi_assoc "last_price" fi = Some FieldRaises.

(** The last non-missing close of a frame. *)
Definition last_close (df : DataFrame) : option PyFloat.float :=
  match rev (dropna (Close df)) with
  | [] => None
  | x :: _ => Some x
  end.

(** Events of the price fetcher and of the network. *)
Definition is_price_event (e : event) : bool :=
  match e with
  | EvTicker _ | EvFastInfo | EvHistory _ _ => true
  | _ => false
  end.

Definition is_network_event (e : event) : bool :=
  match e with
  | EvRequestsGet _ _ _ | EvTicker _ | EvFastInfo | EvHistory _ _ => true
  | _ => false
  end.

Definition is_resolver_event (e : event) : bool :=
  match e with
  | EvRequestsGet _ _ _ => true
  | _ => false
  end.

(** The price column: the marker for an absent price, else the price
    with four decimals and thousands separators. *)
Definition price_cell (price : option PyFloat.float) : pyval :=
  match price with
  | None => PStr "[red]N/A[/red]"
  | Some p => PStr (PyFloat.format_comma_4f p)
  end.

(** How a call of [console.print] on [tb] ends. *)
Definition print_result (w : world) (tb : Table) : result unit :=
  match console_print w tb with
  | PrintReturns => Ok tt
  | PrintRaises e => Raise (PyExc e)
  end.

(** The table printed for a ticker, a display name and a price. *)
Definition price_table (ticker asset_name : pyval)
    (price : option PyFloat.float) : Table :=
  {| title := "TradedeskCLI – Price Lookup";
     columns :=
       [ {| header := "Name"; style := Some "bold"; justify := None |};
         {| header := "Ticker"; style := None; justify := None |};
         {| header := "Current Price"; style := None;
            justify := Some "right" |} ];
     rows := [[cell asset_name; cell (py_or ticker (PStr "-"));
               price_cell price]] |}.

(** What the presentation branch emits, and how the command then ends. *)
Definition presented (json_out : bool) (ticker asset_name : pyval)
    (price : option PyFloat.float) : event :=
  if json_out then
    EvEcho (Json.dumps_indent2
              (PDict [("ticker", ticker); ("name", asset_name);
                      ("price", match price with
                                | Some x => PFloat x
                                | None => PNone
                                end);
                      ("success", PBool match price with
                                        | Some _ => true
                                        | None => false
                                        end)]))
  else EvConsolePrint (price_table ticker asset_name price).

Definition finished (w : world) (json_out : bool) (ticker asset_name : pyval)
    (price : option PyFloat.float) : result unit :=
  if json_out then Raise (TyperExit 0)
  else print_result w (price_table ticker asset_name price).

(** The presentation branch for a ticker, a display name and a price: the
    JSON text and exit 0, or the table handed to the console; the table
    refuses a ticker or a name that is not text. *)
Definition present (w : world) (json_out : bool) (ticker asset_name : pyval)
    (price : option PyFloat.float) : M unit :=
  if json_out || (cell_ok asset_name && cell_ok (py_or ticker (PStr "-")))
  then ([presented json_out ticker asset_name price],
        finished w json_out ticker asset_name price)
  else ([], Raise (PyExc "NotRenderableError")).

Definition is_str (v : pyval) : bool :=
  match v with
  | PStr _ => true
  | _ => false
  end.

(** The run [run] consists of the events [pre] and the presentation of
    [ticker], [name] and [price].  With [--json]: the echo of the object
    with these values under the keys ticker, name, price, success, and
    exit code 0.  Without: the call of [console.print] on a table whose
    one row is the name, the ticker and the price or the N/A marker; the
    run ends as that call does. *)
Definition presents (w : world) (json_out : bool) (pre : list event)
    (ticker name : pyval) (price : option PyFloat.float) (run : M unit)
    : Prop :=
  if json_out then
    run =
      ((pre ++
        [EvEcho (Json.dumps_indent2
                   (PDict [("ticker", ticker); ("name", name);
                           ("price", match price with
                                     | Some x => PFloat x
                                     | None => PNone
                                     end);
                           ("success", PBool match price with
                                             | Some _ => true
                                             | None => false
                                             end)]))])%list,
       Raise (TyperExit 0))
  else
    exists tb,
      rows tb =
        [[name; ticker;
          match price with
          | None => PStr "[red]N/A[/red]"
          | Some x => PStr (PyFloat.format_comma_4f x)
          end]] /\
      run = ((pre ++ [EvConsolePrint tb])%list, print_result w tb).

(** The run [m] after the events [tr]. *)
Definition after {A} (tr : list event) (m : M A) : M A :=
  ((tr ++ trace m)%list, outcome m).



(** ** Sample data *)

(** The float written [150.1234]. *)
Definition f150 : PyFloat.float :=
  Eval vm_compute in PyFloat.of_ratio 1501234 10000.

(** The float written [99.5]. *)
Definition f99 : PyFloat.float := Eval vm_compute in PyFloat.of_ratio 995 10.

(** A ticker object with the given fast info, minute history and daily
    history. *)
Definition ticker_with (fi : fast_outcome) (minute daily : hist_outcome)
    : TickerObj :=
  {| fast_info := fi;
     history := fun _ interval =>
                  if (interval =? "1m")%string then minute else daily |}.

Definition frame (closes : list PyFloat.float) : hist_outcome :=
  HistoryIs {| Close := closes |}.

(** A world where every symbol is the ticker object [t] and the search
    endpoint answers [http]. *)
Definition market (http : http_outcome) (t : TickerObj) : world :=
  {| requests_get := fun _ _ _ => http;
     yf_Ticker := fun _ => Some t;
     console_print := fun _ => PrintReturns |}.

Definition fast_quote (p : PyFloat.float) : fast_outcome :=
  FastInfoIs [("last_price", FieldIs (Some p))].

Definition offline : TickerObj -> world := market GetRaises.

(** A world where every external call raises. *)
Definition no_network : world :=
  {| requests_get := fun _ _ _ => GetRaises;
     yf_Ticker := fun _ => None;
     console_print := fun _ => PrintReturns |}.

(** The world [w] with a console that refuses every table. *)
Definition with_failing_console (w : world) : world :=
  {| requests_get := requests_get w;
     yf_Ticker := yf_Ticker w;
     console_print := fun _ => PrintRaises "MarkupError" |}.

Definition tk_fast : TickerObj :=
  ticker_with (fast_quote f150) HistoryRaises HistoryRaises.
Definition tk_minute : TickerObj :=
  ticker_with FastInfoRaises (frame [f150; f99; S754_nan]) HistoryRaises.
Definition tk_daily : TickerObj :=
  ticker_with (fast_quote (S754_zero false)) (frame []) (frame [f99; f150]).
Definition tk_missing_closes : TickerObj :=
  ticker_with (FastInfoIs []) (frame [S754_nan]) (frame [f150]).
Definition tk_minute_raises : TickerObj :=
  ticker_with (FastInfoIs []) HistoryRaises (frame [f150]).
Definition tk_field_raises : TickerObj :=
  ticker_with (FastInfoIs [("last_price", FieldRaises)]) (frame [f99])
    HistoryRaises.
Definition tk_empty : TickerObj :=
  ticker_with (FastInfoIs []) (frame []) (frame []).

(** A search response with the given status and parsed body. *)
Definition response (status : Z) (body : pyval) : http_outcome :=
  GetResponse {| status_code := status; json_body := Some body |}.

Definition apple_quote : list (string * pyval) :=
  [("symbol", PStr "AAPL"); ("longname", PStr "Apple Inc.");
   ("quoteType", PStr "EQUITY"); ("exchange", PStr "NMS");
   ("score", PFloat (PyFloat.of_Z 31292))].

Definition apple_body : pyval :=
  PDict [("quotes", PList [PDict apple_quote])].

(** The two renderings of the result for [--ticker AAPL --json] and the
    price 150.1234: on one line, and as [indent=2] lays it out. *)
Definition quoted (s : string) : string := Json.dquote ++ s ++ Json.dquote.

Definition one_line_output : string :=
  "{" ++ quoted "ticker" ++ ": " ++ quoted "AAPL" ++ ", " ++
  quoted "name" ++ ": " ++ quoted "AAPL" ++ ", " ++
  quoted "price" ++ ": 150.1234, " ++
  quoted "success" ++ ": true}".

Definition indented_output : string :=
  "{" ++ Json.newline ++
  "  " ++ quoted "ticker" ++ ": " ++ quoted "AAPL" ++ "," ++ Json.newline ++
  "  " ++ quoted "name" ++ ": " ++ quoted "AAPL" ++ "," ++ Json.newline ++
  "  " ++ quoted "price" ++ ": 150.1234," ++ Json.newline ++
  "  " ++ quoted "success" ++ ": true" ++ Json.newline ++
  "}".

(** The external calls of the price fetcher, in the order of the source. *)
Definition price_calls (ticker : pyval) : list event :=
  [EvTicker ticker; EvFastInfo; EvHistory "1d" "1m"; EvHistory "1d" "1d"].

(** What the command writes: a line through [typer.echo] or the table. *)
Definition is_output_event (e : event) : bool :=
  match e with
  | EvEcho _ | EvConsolePrint _ => true
  | _ => false
  end.

(** What the resolver returns for [name] ([None] if it raised, which it
    never does). *)
Definition resolved_value (w : world) (name : string) : pyval :=
  match outcome (lookup_ticker_by_name w name) with
  | Ok r => r
  | Raise _ => PNone
  end.

(** The exit code of the command in JSON mode, option by option. *)
Definition json_exit_code (w : world) (ticker name : option string) : Z :=
  if truthy (of_option ticker) then 0
  else
    match name with
    | Some n =>
        if truthy (PStr n) then
          if truthy (dict_get "symbol" (resolved_value w n)) then 0 else 1
        else 2
    | None => 2
    end.

(** * Properties *)

(** ** The monad *)

(** A [try] whose handler returns a value never lets an exception out. *)
Lemma try_except_returns {A} (body : M A) (v : A) :
  exists tr a, try_except body (ret v) = (tr, Ok a).
Proof.
  destruct body as [tr [a | e]]; simpl; eauto.
Qed.

(** Case analysis on an innermost scrutinee of the goal. *)
Ltac case_step :=
  match goal with
  | |- context [match ?x with _ => _ end] =>
      lazymatch x with
      | context [match _ with _ => _ end] => fail
      | _ => destruct x eqn:?; simpl
      end
  end.

(** ** The resolver *)

Lemma raise_for_status_error r :
  error_status r -> raise_for_status r = raise (PyExc "HTTPError").
Proof.
  unfold error_status, raise_for_status. intros [H1 H2].
  apply Z.leb_le in H1. apply Z.ltb_lt in H2. rewrite H1, H2. reflexivity.
Qed.

Lemma raise_for_status_ok r :
  ~ error_status r -> raise_for_status r = ret tt.
Proof.
  unfold error_status, raise_for_status. intros H.
  destruct (400 <=? status_code r) eqn:H1; simpl; [|reflexivity].
  destruct (status_code r <? 600) eqn:H2; simpl; [|reflexivity].
  apply Z.leb_le in H1. apply Z.ltb_lt in H2. lia.
Qed.

Lemma error_status_dec r : {error_status r} + {~ error_status r}.
Proof.
  unfold error_status.
  destruct (Z_le_dec 400 (status_code r)), (Z_lt_dec (status_code r) 600);
    (left; lia) || (right; lia).
Qed.

(** A match with a truthy symbol has a truthy name. *)
Lemma match_of_name_truthy q :
  truthy (dict_get "symbol" (match_of q)) = true ->
  truthy (dict_get "name" (match_of q)) = true.
Proof.
  unfold match_of, py_or. simpl.
  destruct (truthy (match assoc "shortname" q with Some x => x | None => PNone end)) eqn:E1;
    [intros _; exact E1|].
  destruct (truthy (match assoc "longname" q with Some x => x | None => PNone end)) eqn:E2;
    [intros _; exact E2|].
  trivial.
Qed.

Section Resolver.

Variable w : world.
Variable name : string.

(** What the search endpoint answers to the request for [name]. *)
Local Abbreviation sent :=
  (requests_get w YAHOO_SEARCH_URL (search_params name) 10).

(** The run that ends in the one "not found" outcome. *)
Local Abbreviation not_found := ([search_request name], Ok PNone).

Ltac lookup_open H :=
  unfold lookup_ticker_by_name, call_requests_get; rewrite H;
  unfold bind, ret, raise, emit, try_except, resp_json, or_else, py_get,
    py_index0; simpl.

Ltac status_cases r :=
  unfold raise_for_status;
  destruct ((400 <=? status_code r) && (status_code r <? 600)); simpl;
  [reflexivity|].

Lemma lookup_transport_error :
  sent = GetRaises -> lookup_ticker_by_name w name = not_found.
Proof.
  intros H. lookup_open H. reflexivity.
Qed.

Lemma lookup_error_status r :
  sent = GetResponse r -> error_status r ->
  lookup_ticker_by_name w name = not_found.
Proof.
  intros H Hs. lookup_open H.
  rewrite (raise_for_status_error r Hs). reflexivity.
Qed.

Lemma lookup_not_json r :
  sent = GetResponse r -> json_body r = None ->
  lookup_ticker_by_name w name = not_found.
Proof.
  intros H Hb. lookup_open H. status_cases r. rewrite Hb. reflexivity.
Qed.

Lemma lookup_no_candidate r v :
  sent = GetResponse r -> json_body r = Some v ->
  first_candidate v = None ->
  lookup_ticker_by_name w name = not_found.
Proof.
  intros H Hb Hv. lookup_open H. status_cases r. rewrite Hb.
  destruct v as [| | | | |l|d]; try reflexivity. simpl in *.
  destruct (assoc "quotes" d) as [qv|]; [destruct qv|]; simpl;
    repeat case_step; try reflexivity; discriminate Hv.
Qed.

Lemma lookup_success r v q :
  sent = GetResponse r -> ~ error_status r ->
  json_body r = Some v -> first_candidate v = Some q ->
  lookup_ticker_by_name w name = ([search_request name], Ok (match_of q)).
Proof.
  intros H Hs Hb Hq. lookup_open H.
  rewrite (raise_for_status_ok r Hs). unfold ret. rewrite Hb. simpl.
  destruct v as [| | | | |l|d]; try discriminate Hq. simpl in *.
  destruct (assoc "quotes" d) as [[| | | | |[|[] l]|]|]; try discriminate Hq.
  injection Hq as ->. simpl. unfold match_of, dict_get, py_or.
  destruct (assoc "symbol" q), (assoc "shortname" q), (assoc "longname" q);
    simpl; repeat case_step; reflexivity.
Qed.

(** The resolver returns [None] or the match built from a candidate. *)
Lemma lookup_shape :
  lookup_ticker_by_name w name = not_found \/
  exists q,
    lookup_ticker_by_name w name = ([search_request name], Ok (match_of q)).
Proof.
  destruct sent as [|r] eqn:H; [left; exact (lookup_transport_error H)|].
  destruct (error_status_dec r) as [Hs|Hs];
    [left; exact (lookup_error_status r H Hs)|].
  destruct (json_body r) as [v|] eqn:Hb;
    [|left; exact (lookup_not_json r H Hb)].
  destruct (first_candidate v) as [q|] eqn:Hq.
  - right. exists q. exact (lookup_success r v q H Hs Hb Hq).
  - left. exact (lookup_no_candidate r v H Hb Hq).
Qed.

(** The resolver sends exactly one request and returns a value. *)
Lemma lookup_one_request :
  exists v, lookup_ticker_by_name w name = ([search_request name], Ok v).
Proof.
  destruct lookup_shape as [E | [q E]]; rewrite E; eauto.
Qed.

(** C7. For every name query the resolver sends one request and returns
    without raising.  A transport error, a 4xx or 5xx status, a body that
    is not JSON and a body without a first candidate (an empty or missing
    match list, or a malformed one) all give the same [None].  Otherwise
    it returns the first candidate's symbol, with the name taken from
    [shortname], else [longname], else the symbol. *)
Theorem lookup_ticker_by_name_outcomes :
  let run := lookup_ticker_by_name w name in
  (exists v, run = ([search_request name], Ok v)) /\
  (sent = GetRaises -> run = not_found) /\
  (forall r, sent = GetResponse r -> error_status r -> run = not_found) /\
  (forall r, sent = GetResponse r -> json_body r = None -> run = not_found) /\
  (forall r v, sent = GetResponse r -> json_body r = Some v ->
               first_candidate v = None -> run = not_found) /\
  (forall r v q, sent = GetResponse r -> ~ error_status r ->
                 json_body r = Some v -> first_candidate v = Some q ->
     run = ([search_request name], Ok (match_of q)) /\
     dict_get "symbol" (match_of q) = dict_get "symbol" (PDict q) /\
     dict_get "name" (match_of q) =
       if truthy (dict_get "shortname" (PDict q))
       then dict_get "shortname" (PDict q)
       else if truthy (dict_get "longname" (PDict q))
            then dict_get "longname" (PDict q)
            else dict_get "symbol" (PDict q)).
Proof.
  cbv zeta. split; [exact lookup_one_request|].
  split; [exact lookup_transport_error|].
  split; [exact lookup_error_status|].
  split; [exact lookup_not_json|].
  split; [exact lookup_no_candidate|].
  intros r v q H Hs Hb Hq.
  split; [exact (lookup_success r v q H Hs Hb Hq)|].
  split; reflexivity.
Qed.

End Resolver.

(** ** The price fetcher *)

(** The fast step never raises and yields [fast_value]. *)
Lemma fast_step_value t : fast_step t = ([EvFastInfo], Ok (fast_value t)).
Proof.
  unfold fast_step, get_fast_info, fast_condition, fi_getitem, fi_contains,
    fi_truthy, py_float, opt_truthy, fast_value.
  destruct (fast_info t) as [|fi]; [reflexivity|].
  destruct fi as [|kf fi]; [reflexivity|].
  cbv beta iota zeta delta [bind ret emit raise try_except app].
  destruct (fi_assoc "last_price" (kf :: fi)) as [[|[x|]]|];
    try reflexivity.
  destruct (PyFloat.truthy x); reflexivity.
Qed.

Lemma fast_raises_no_value t : fast_raises t -> fast_value t = None.
Proof.
  unfold fast_value. intros [H | [fi [H1 H2]]].
  - rewrite H. reflexivity.
  - rewrite H1, H2. reflexivity.
Qed.

Lemma empty_last_close df : empty df = true -> last_close df = None.
Proof.
  unfold empty, last_close. destruct (Close df); [reflexivity|discriminate].
Qed.

Lemma iloc_last_dropna df :
  iloc_last (dropna (Close df)) =
    match last_close df with
    | Some c => ret c
    | None => raise (PyExc "IndexError")
    end.
Proof.
  unfold iloc_last, last_close. destruct (rev (dropna (Close df))); reflexivity.
Qed.

(** One step of the run: the monad's operations and the calls unfold,
    everything else stays as it is. *)
Ltac run_step :=
  cbv beta iota zeta delta
    [bind ret emit raise try_except app call_history call_Ticker].

Lemma price_ticker_raises w ticker :
  yf_Ticker w ticker = None ->
  get_current_price w ticker = ([EvTicker ticker], Ok None).
Proof.
  intros H. unfold get_current_price. run_step. rewrite H. reflexivity.
Qed.

(** The price fetcher always returns: no exception reaches the caller. *)
Lemma price_returns w ticker :
  exists tr p, get_current_price w ticker = (tr, Ok p).
Proof. apply try_except_returns. Qed.

Section PriceFetcher.

Variable w : world.
Variable ticker : pyval.
Variable t : TickerObj.
Hypothesis Ht : yf_Ticker w ticker = Some t.

Ltac price_open :=
  unfold get_current_price; run_step; rewrite Ht; run_step;
  rewrite fast_step_value; run_step.

Lemma price_fast p :
  fast_value t = Some p ->
  get_current_price w ticker = ([EvTicker ticker; EvFastInfo], Ok (Some p)).
Proof.
  intros Hf. price_open. rewrite Hf. reflexivity.
Qed.

Lemma price_minute_raises :
  fast_value t = None ->
  history t "1d" "1m" = HistoryRaises ->
  get_current_price w ticker =
    ([EvTicker ticker; EvFastInfo; EvHistory "1d" "1m"], Ok None).
Proof.
  intros Hf Hm. price_open. rewrite Hf. run_step. rewrite Hm.
  reflexivity.
Qed.

(** A minute frame with rows ends the chain: its last non-missing close,
    or [None] when every close is missing. *)
Lemma price_minute df :
  fast_value t = None ->
  history t "1d" "1m" = HistoryIs df ->
  empty df = false ->
  get_current_price w ticker =
    ([EvTicker ticker; EvFastInfo; EvHistory "1d" "1m"], Ok (last_close df)).
Proof.
  intros Hf Hm He. price_open. rewrite Hf. run_step. rewrite Hm.
  run_step. rewrite He. simpl negb. cbv iota. rewrite iloc_last_dropna.
  destruct (last_close df); reflexivity.
Qed.

Lemma price_daily_raises df :
  fast_value t = None ->
  history t "1d" "1m" = HistoryIs df ->
  empty df = true ->
  history t "1d" "1d" = HistoryRaises ->
  get_current_price w ticker =
    ([EvTicker ticker; EvFastInfo; EvHistory "1d" "1m"; EvHistory "1d" "1d"],
     Ok None).
Proof.
  intros Hf Hm He Hd. price_open. rewrite Hf. run_step. rewrite Hm.
  run_step. rewrite He. simpl negb. run_step. rewrite Hd. reflexivity.
Qed.

Lemma price_daily df df' :
  fast_value t = None ->
  history t "1d" "1m" = HistoryIs df ->
  empty df = true ->
  history t "1d" "1d" = HistoryIs df' ->
  get_current_price w ticker =
    ([EvTicker ticker; EvFastInfo; EvHistory "1d" "1m"; EvHistory "1d" "1d"],
     Ok (last_close df')).
Proof.
  intros Hf Hm He Hd. price_open. rewrite Hf. run_step. rewrite Hm.
  run_step. rewrite He. simpl negb. run_step. rewrite Hd. run_step.
  destruct (empty df') eqn:He'.
  - rewrite (empty_last_close df' He'). reflexivity.
  - simpl negb. cbv iota. rewrite iloc_last_dropna.
    destruct (last_close df'); reflexivity.
Qed.

(** Its events are those of the market-data library only. *)
Lemma price_events_handle :
  forallb is_price_event (trace (get_current_price w ticker)) = true.
Proof.
  destruct (fast_value t) as [p|] eqn:Hf;
    [rewrite (price_fast p Hf); reflexivity|].
  destruct (history t "1d" "1m") as [|df] eqn:Hm;
    [rewrite (price_minute_raises Hf Hm); reflexivity|].
  destruct (empty df) eqn:He;
    [|rewrite (price_minute df Hf Hm He); reflexivity].
  destruct (history t "1d" "1d") as [|df'] eqn:Hd.
  - rewrite (price_daily_raises df Hf Hm He Hd). reflexivity.
  - rewrite (price_daily df df' Hf Hm He Hd). reflexivity.
Qed.

(** An exception while the fast price is read leads to the minute
    history. *)
Lemma price_fast_raises :
  fast_raises t ->
  exists tr p,
    get_current_price w ticker =
      (EvTicker ticker :: EvFastInfo :: EvHistory "1d" "1m" :: tr, Ok p).
Proof.
  intros Hr. apply fast_raises_no_value in Hr.
  destruct (history t "1d" "1m") as [|df] eqn:Hm.
  - rewrite (price_minute_raises Hr Hm). eauto.
  - destruct (empty df) eqn:He.
    + destruct (history t "1d" "1d") as [|df'] eqn:Hd.
      * rewrite (price_daily_raises df Hr Hm He Hd). eauto.
      * rewrite (price_daily df df' Hr Hm He Hd). eauto.
    + rewrite (price_minute df Hr Hm He). eauto.
Qed.


End PriceFetcher.

Lemma price_events w ticker :
  forallb is_price_event (trace (get_current_price w ticker)) = true.
Proof.
  destruct (yf_Ticker w ticker) as [t|] eqn:Ht.
  - exact (price_events_handle w ticker t Ht).
  - rewrite (price_ticker_raises w ticker Ht). reflexivity.
Qed.



(** C2 (as stated).  An exception at the minute-history step does not
    lead to the daily-history step: the fetcher returns [None] at once. *)
Lemma minute_exception_skips_daily :
  ~ (forall w ticker t,
       yf_Ticker w ticker = Some t ->
       fast_value t = None ->
       history t "1d" "1m" = HistoryRaises ->
       In (EvHistory "1d" "1d") (trace (get_current_price w ticker))).
Proof.
  intros H.
  specialize (H (offline tk_minute_raises) (PStr "X") tk_minute_raises
                eq_refl eq_refl eq_refl).
  vm_compute in H.
  repeat (destruct H as [H | H]; [discriminate H|]). exact H.
Qed.

(** C2 (amended).  No exception ever reaches the caller.  An exception
    while reading the fast price counts as that step producing nothing and
    the fetcher goes on to the minute history.  An exception when the
    handle is built, or raised by the minute-history or the daily-history
    call, makes the fetcher return [None] at once, later steps not being
    tried.  When the fast price is absent and both frames are empty the
    result is [None]. *)
Theorem price_fetch_exceptions (w : world) (ticker : pyval) :
  (exists tr p, get_current_price w ticker = (tr, Ok p)) /\
  (yf_Ticker w ticker = None ->
     get_current_price w ticker = ([EvTicker ticker], Ok None)) /\
  (forall t, yf_Ticker w ticker = Some t ->
     (fast_raises t ->
        exists tr p, get_current_price w ticker =
          (EvTicker ticker :: EvFastInfo :: EvHistory "1d" "1m" :: tr, Ok p)) /\
     (fast_value t = None -> history t "1d" "1m" = HistoryRaises ->
        get_current_price w ticker =
          ([EvTicker ticker; EvFastInfo; EvHistory "1d" "1m"], Ok None)) /\
     (forall df, fast_value t = None ->
        history t "1d" "1m" = HistoryIs df -> empty df = true ->
        history t "1d" "1d" = HistoryRaises ->
        get_current_price w ticker =
          ([EvTicker ticker; EvFastInfo; EvHistory "1d" "1m";
            EvHistory "1d" "1d"], Ok None)) /\
     (forall df df', fast_value t = None ->
        history t "1d" "1m" = HistoryIs df -> empty df = true ->
        history t "1d" "1d" = HistoryIs df' -> empty df' = true ->
        get_current_price w ticker =
          ([EvTicker ticker; EvFastInfo; EvHistory "1d" "1m";
            EvHistory "1d" "1d"], Ok None))).
Proof.
  split; [apply price_returns|].
  split; [apply price_ticker_raises|].
  intros t Ht. split; [|split; [|split]].
  - exact (price_fast_raises w ticker t Ht).
  - exact (price_minute_raises w ticker t Ht).
  - exact (price_daily_raises w ticker t Ht).
  - intros df df' Hf Hm He Hd He'.
    rewrite (price_daily w ticker t Ht df df' Hf Hm He Hd).
    rewrite (empty_last_close df' He'). reflexivity.
Qed.

Lemma price_fetch_exceptions_witness :
  get_current_price no_network (PStr "AAPL")
  = ([EvTicker (PStr "AAPL")], Ok None) /\
  (exists tr p,
     get_current_price (offline tk_field_raises) (PStr "AAPL")
     = (EvTicker (PStr "AAPL") :: EvFastInfo :: EvHistory "1d" "1m" :: tr,
        Ok p)) /\
  get_current_price (offline tk_minute_raises) (PStr "AAPL")
  = ([EvTicker (PStr "AAPL"); EvFastInfo; EvHistory "1d" "1m"], Ok None) /\
  get_current_price (offline tk_empty) (PStr "AAPL")
  = ([EvTicker (PStr "AAPL"); EvFastInfo; EvHistory "1d" "1m";
      EvHistory "1d" "1d"], Ok None).
Proof.
  split; [|split; [|split]].
  - destruct (price_fetch_exceptions no_network (PStr "AAPL")) as (_ & H & _).
    apply H. reflexivity.
  - destruct (price_fetch_exceptions (offline tk_field_raises) (PStr "AAPL"))
      as (_ & _ & H).
    destruct (H tk_field_raises eq_refl) as (H1 & _).
    apply H1. right. eexists. split; reflexivity.
  - destruct (price_fetch_exceptions (offline tk_minute_raises) (PStr "AAPL"))
      as (_ & _ & H).
    destruct (H tk_minute_raises eq_refl) as (_ & H2 & _).
    apply H2; reflexivity.
  - destruct (price_fetch_exceptions (offline tk_empty) (PStr "AAPL"))
      as (_ & _ & H).
    destruct (H tk_empty eq_refl) as (_ & _ & _ & H4).
    apply (H4 {| Close := [] |} {| Close := [] |}); reflexivity.
Defined.

Lemma lookup_ticker_by_name_outcomes_witness :
  lookup_ticker_by_name no_network "Apple"
  = ([search_request "Apple"], Ok PNone) /\
  lookup_ticker_by_name (market (response 503 apple_body) tk_fast) "Apple"
  = ([search_request "Apple"], Ok PNone) /\
  lookup_ticker_by_name
    (market (response 200 (PDict [("quotes", PList [])])) tk_fast) "Apple"
  = ([search_request "Apple"], Ok PNone) /\
  lookup_ticker_by_name (market (response 200 apple_body) tk_fast) "Apple"
  = ([search_request "Apple"], Ok (match_of apple_quote)) /\
  dict_get "name" (match_of apple_quote) = PStr "Apple Inc.".
Proof.
  split; [|split; [|split; [|split]]].
  - destruct (lookup_ticker_by_name_outcomes no_network "Apple")
      as (_ & H & _).
    apply H. reflexivity.
  - destruct (lookup_ticker_by_name_outcomes
                (market (response 503 apple_body) tk_fast) "Apple")
      as (_ & _ & H & _).
    apply (H {| status_code := 503; json_body := Some apple_body |}).
    + reflexivity.
    + unfold error_status. simpl. lia.
  - destruct (lookup_ticker_by_name_outcomes
                (market (response 200 (PDict [("quotes", PList [])])) tk_fast)
                "Apple")
      as (_ & _ & _ & _ & H & _).
    apply (H {| status_code := 200;
                json_body := Some (PDict [("quotes", PList [])]) |}
             (PDict [("quotes", PList [])])); reflexivity.
  - destruct (lookup_ticker_by_name_outcomes
                (market (response 200 apple_body) tk_fast) "Apple")
      as (_ & _ & _ & _ & _ & H).
    apply (H {| status_code := 200; json_body := Some apple_body |}
             apple_body apple_quote); try reflexivity.
    unfold error_status. simpl. lia.
  - reflexivity.
Defined.

(** ** The command *)

Lemma truthy_str s : s <> "" -> truthy (PStr s) = true.
Proof. destruct s; [congruence|reflexivity]. Qed.

Lemma truthy_option o :
  truthy (of_option o) = true -> exists s, o = Some s /\ s <> "".
Proof.
  destruct o as [s|]; [|discriminate]. intros H. exists s. split; [reflexivity|].
  intros ->. discriminate H.
Qed.

(** In JSON mode, and in table mode when ticker and name are text, the
    presentation is one event. *)
Lemma present_text w j t a p :
  j = true \/ (cell_ok a = true /\ cell_ok (py_or t (PStr "-")) = true) ->
  present w j t a p = ([presented j t a p], finished w j t a p).
Proof.
  unfold present. intros [-> | [-> ->]]; [reflexivity|].
  rewrite orb_true_r. reflexivity.
Qed.

(** The presentation in the words of [presents]. *)
Lemma presents_after w j pre t a p :
  j = true \/ (is_str t = true /\ is_str a = true /\ truthy t = true) ->
  presents w j pre t a p (after pre (present w j t a p)).
Proof.
  intros [-> | (Ht & Ha & Htt)].
  - reflexivity.
  - destruct t; try discriminate Ht. destruct a; try discriminate Ha.
    unfold presents, present, after, presented, finished, trace, outcome,
      py_or. rewrite Htt.
    destruct j; [reflexivity|]. cbn [orb cell_ok andb fst snd].
    eexists. split; [|reflexivity].
    unfold price_table, price_cell, py_or. rewrite Htt.
    destruct p; reflexivity.
Qed.


Ltac command_step :=
  cbv beta iota zeta delta
    [bind ret emit raise try_except py_get py_getitem call_console_print].

Ltac trace_norm :=
  repeat rewrite app_nil_r; repeat rewrite <- app_assoc; cbn [app].

Lemma command_usage w ticker name j :
  truthy (of_option ticker) = false ->
  truthy (of_option name) = false ->
  search_command w ticker name j =
    ([EvEcho usage_message], Raise (TyperExit 2)).
Proof.
  intros Ht Hn. unfold search_command. rewrite Ht, Hn. reflexivity.
Qed.

(** The tail of the command, from the fetched price on, after the events
    [pre]. *)
Lemma presentation_branch (w : world) (j : bool) (t a : pyval)
    (p : option PyFloat.float) (pre : list event) :
  bind (pre, Ok tt)
    (fun _ : unit =>
       if j then
         emit (EvEcho (Json.dumps_indent2 (payload t a p))) ;;
         raise (TyperExit 0)
       else
         let table := new_table "TradedeskCLI – Price Lookup" in
         let table := add_column table "Name" (Some "bold") None in
         let table := add_column table "Ticker" None None in
         let table := add_column table "Current Price" None (Some "right") in
         table <- match p with
                  | None =>
                      add_row table
                        [a; py_or t (PStr "-"); PStr "[red]N/A[/red]"]
                  | Some x =>
                      add_row table
                        [a; py_or t (PStr "-");
                         PStr (PyFloat.format_comma_4f x)]
                  end ;;
         call_console_print w table)
  = after pre (present w j t a p).
Proof.
  unfold after, present, presented, finished, price_table, price_cell,
    print_result, trace, outcome.
  destruct j.
  - destruct p; reflexivity.
  - cbv zeta. unfold add_row.
    cbn [orb forallb new_table add_column title columns rows app map].
    destruct p; cbn [cell_ok andb]; rewrite !andb_true_r;
      destruct (cell_ok a && cell_ok (py_or t (PStr "-")));
      command_step; cbn [fst snd map app];
      try destruct (console_print w _); trace_norm; reflexivity.
Qed.

(** With a ticker on the command line the resolver is not called. *)
Lemma command_ticker w t name j tr p :
  t <> "" ->
  get_current_price w (PStr t) = (tr, Ok p) ->
  search_command w (Some t) name j =
    after tr
      (present w j (PStr t)
         (if truthy (of_option name) then of_option name else PStr t) p).
Proof.
  intros Ht Hp. apply truthy_str in Ht.
  rewrite <- presentation_branch.
  unfold search_command, name_and_not_ticker.
  cbn [of_option]. rewrite Ht. cbn [negb andb].
  replace (match name with
           | Some n => if truthy (PStr n) && false then Some n else None
           | None => None
           end) with (@None string)
    by (destruct name as [n|]; [rewrite andb_false_r|]; reflexivity).
  command_step. rewrite Hp. command_step.
  unfold add_row, py_or. rewrite Ht.
  destruct name as [n|]; [cbn [of_option]; destruct (truthy (PStr n))|];
    destruct j, p; try (trace_norm; reflexivity);
    cbn; destruct (console_print w _); trace_norm; reflexivity.
Qed.

(** Without a ticker, a name whose lookup gives no symbol ends the run. *)
Lemma command_unresolved w ticker n j tr r :
  truthy (of_option ticker) = false ->
  n <> "" ->
  lookup_ticker_by_name w n = (tr, Ok r) ->
  truthy (dict_get "symbol" r) = false ->
  search_command w ticker (Some n) j =
    ((tr ++ [EvEcho (no_results_message n)])%list, Raise (TyperExit 1)).
Proof.
  intros Ht Hn Hl Hs. apply truthy_str in Hn.
  unfold search_command, name_and_not_ticker.
  cbn [of_option]. rewrite Ht, Hn. cbn [negb andb].
  command_step. rewrite Hl. command_step.
  destruct (lookup_shape w n) as [E | [q E]]; rewrite Hl in E;
    injection E as _ ->.
  - trace_norm. reflexivity.
  - unfold match_of in *. simpl in Hs. simpl. rewrite Hs.
    trace_norm. reflexivity.
Qed.

(** Without a ticker, a name whose lookup gives a symbol is priced under
    that symbol and presented under the match's name. *)
Lemma command_resolved w ticker n j tr0 r tr p :
  truthy (of_option ticker) = false ->
  n <> "" ->
  lookup_ticker_by_name w n = (tr0, Ok r) ->
  truthy (dict_get "symbol" r) = true ->
  get_current_price w (dict_get "symbol" r) = (tr, Ok p) ->
  search_command w ticker (Some n) j =
    after (tr0 ++ tr)
      (present w j (dict_get "symbol" r) (dict_get "name" r) p).
Proof.
  intros Ht Hn Hl Hs Hp. apply truthy_str in Hn.
  rewrite <- presentation_branch.
  unfold search_command, name_and_not_ticker.
  cbn [of_option]. rewrite Ht, Hn. cbn [negb andb].
  command_step. rewrite Hl. command_step.
  destruct (lookup_shape w n) as [E | [q E]]; rewrite Hl in E;
    injection E as _ ->.
  - discriminate Hs.
  - pose proof (match_of_name_truthy q Hs) as Hname.
    unfold match_of in *. simpl in Hs, Hname, Hp. simpl.
    rewrite Hs. simpl. command_step. rewrite Hp. command_step.
    rewrite Hname. clear Hl Hs Hname Hp. revert tr0 tr.
    generalize (py_or match assoc "shortname" q with
                      | Some x => x
                      | None => PNone
                      end
                  (py_or match assoc "longname" q with
                         | Some x => x
                         | None => PNone
                         end
                     match assoc "symbol" q with
                     | Some x => x
                     | None => PNone
                     end)) as nm.
    generalize (match assoc "symbol" q with
                | Some x => x
                | None => PNone
                end) as sym.
    intros sym nm tr0 tr. unfold add_row.
    destruct j, p; try (trace_norm; reflexivity);
      cbn [forallb cell_ok andb]; rewrite ?andb_true_r;
      destruct (cell_ok nm && cell_ok (py_or sym (PStr "-")));
      cbn; try destruct (console_print w _); trace_norm; reflexivity.
Qed.


Lemma price_events_not_resolver tr :
  forallb is_price_event tr = true ->
  forallb (fun e => negb (is_resolver_event e)) tr = true.
Proof.
  induction tr as [|e tr IH]; [reflexivity|]. simpl.
  intros H. apply andb_true_iff in H. destruct H as [He Htr].
  rewrite (IH Htr). destruct e; try discriminate He; reflexivity.
Qed.

(** The float [f150] is the one Python prints as 150.1234. *)
Lemma repr_f150 : PyFloat.repr f150 = "150.1234".
Proof. vm_compute. reflexivity. Qed.

(** C3 (as stated).  With the fast price 150.1234 for AAPL the echoed
    text is not the one-line rendering. *)
Lemma json_output_not_one_line :
  ~ (forall w tr,
       get_current_price w (PStr "AAPL") = (tr, Ok (Some f150)) ->
       search_command w (Some "AAPL") None true =
         ((tr ++ [EvEcho one_line_output])%list, Raise (TyperExit 0))).
Proof.
  intros H.
  specialize (H (offline tk_fast) [EvTicker (PStr "AAPL"); EvFastInfo] eq_refl).
  vm_compute in H. discriminate H.
Qed.

(** C3 (amended).  When invoked with [--ticker AAPL --json] and the price
    fetch yields 150.1234, the command echoes the object with keys ticker,
    name, price, success laid out by [indent=2] (one key per line, two
    spaces of indentation) and exits with code 0. *)
Theorem json_output_indented (w : world) (tr : list event) :
  get_current_price w (PStr "AAPL") = (tr, Ok (Some f150)) ->
  search_command w (Some "AAPL") None true =
    ((tr ++ [EvEcho indented_output])%list, Raise (TyperExit 0)).
Proof.
  intros H.
  rewrite (command_ticker w "AAPL" None true tr (Some f150) ltac:(discriminate) H).
  reflexivity.
Qed.

Lemma json_output_indented_witness :
  search_command (offline tk_fast) (Some "AAPL") None true =
    ([EvTicker (PStr "AAPL"); EvFastInfo; EvEcho indented_output],
     Raise (TyperExit 0)).
Proof.
  apply (json_output_indented (offline tk_fast)
           [EvTicker (PStr "AAPL"); EvFastInfo]).
  reflexivity.
Defined.



(** C5. With a name and no ticker, when the resolver yields no match or a
    match without a symbol, the command reports the name, exits with code
    1 and makes no call to the price fetcher. *)
Theorem unresolved_name_exits_1 (w : world) (n : string) (json_out : bool)
    (tr : list event) (r : pyval) :
  n <> "" ->
  lookup_ticker_by_name w n = (tr, Ok r) ->
  truthy (dict_get "symbol" r) = false ->
  let run := search_command w None (Some n) json_out in
  run = ((tr ++ [EvEcho (no_results_message n)])%list, Raise (TyperExit 1)) /\
  exit_code run = 1 /\
  forallb (fun e => negb (is_price_event e)) (trace run) = true.
Proof.
  intros Hn Hl Hs. cbv zeta.
  rewrite (command_unresolved w None n json_out tr r eq_refl Hn Hl Hs).
  split; [reflexivity|]. split; [reflexivity|].
  destruct (lookup_one_request w n) as [v Hv]. rewrite Hl in Hv.
  injection Hv as -> _. reflexivity.
Qed.

Lemma unresolved_name_exits_1_witness :
  exit_code
    (search_command
       (market (response 200 (PDict [("quotes", PList [])])) tk_fast)
       None (Some "Nothing") true) = 1 /\
  exit_code
    (search_command
       (market (response 200
                  (PDict [("quotes", PList [PDict [("shortname", PStr "X")]])]))
          tk_fast)
       None (Some "Nameless") false) = 1.
Proof.
  split.
  - apply (unresolved_name_exits_1
             (market (response 200 (PDict [("quotes", PList [])])) tk_fast)
             "Nothing" true [search_request "Nothing"] PNone).
    + discriminate.
    + reflexivity.
    + reflexivity.
  - apply (unresolved_name_exits_1
             (market (response 200
                        (PDict [("quotes",
                                 PList [PDict [("shortname", PStr "X")]])]))
                tk_fast)
             "Nameless" false [search_request "Nameless"]
             (match_of [("shortname", PStr "X")])).
    + discriminate.
    + reflexivity.
    + reflexivity.
Defined.

(** C6. With neither a ticker nor a name the command prints the usage
    line and exits with code 2; it calls neither the resolver nor the
    price fetcher. *)
Theorem no_input_exits_2 (w : world) (json_out : bool) :
  let run := search_command w None None json_out in
  run = ([EvEcho usage_message], Raise (TyperExit 2)) /\
  exit_code run = 2 /\
  forallb (fun e => negb (is_network_event e)) (trace run) = true.
Proof.
  cbv zeta. repeat split.
Qed.

(** C8. The name presented (the name field of the JSON result, the first
    cell of the table row) is the resolver's match name when the resolver
    ran and gave a symbol; else the name supplied on the command line;
    else the ticker symbol.  For a match the table case needs a symbol
    and a name that are text. *)
Theorem display_name_precedence (w : world) (ticker name : option string)
    (json_out : bool) :
  let run := search_command w ticker name json_out in
  (forall n tr0 r,
     truthy (of_option ticker) = false -> name = Some n -> n <> "" ->
     lookup_ticker_by_name w n = (tr0, Ok r) ->
     truthy (dict_get "symbol" r) = true ->
     json_out = true \/
     (is_str (dict_get "symbol" r) = true /\
      is_str (dict_get "name" r) = true) ->
     exists tr p,
       get_current_price w (dict_get "symbol" r) = (tr, Ok p) /\
       presents w json_out (tr0 ++ tr)
         (dict_get "symbol" r) (dict_get "name" r) p run) /\
  (forall t n,
     ticker = Some t -> t <> "" -> name = Some n -> n <> "" ->
     exists tr p,
       get_current_price w (PStr t) = (tr, Ok p) /\
       presents w json_out tr (PStr t) (PStr n) p run) /\
  (forall t,
     ticker = Some t -> t <> "" -> truthy (of_option name) = false ->
     exists tr p,
       get_current_price w (PStr t) = (tr, Ok p) /\
       presents w json_out tr (PStr t) (PStr t) p run).
Proof.
  cbv zeta. split; [|split].
  - intros n tr0 r Ht -> Hn Hl Hs Htext.
    destruct (price_returns w (dict_get "symbol" r)) as (tr & p & Hp).
    exists tr, p. split; [exact Hp|].
    rewrite (command_resolved w ticker n json_out tr0 r tr p Ht Hn Hl Hs Hp).
    apply presents_after.
    destruct Htext as [-> | [H1 H2]]; [left; reflexivity|].
    right. repeat split; assumption.
  - intros t n -> Ht -> Hn.
    destruct (price_returns w (PStr t)) as (tr & p & Hp).
    exists tr, p. split; [exact Hp|].
    rewrite (command_ticker w t (Some n) json_out tr p Ht Hp).
    cbn [of_option]. rewrite (truthy_str n Hn).
    apply presents_after. right. split; [reflexivity|].
    split; [reflexivity|exact (truthy_str t Ht)].
  - intros t -> Ht Hn.
    destruct (price_returns w (PStr t)) as (tr & p & Hp).
    exists tr, p. split; [exact Hp|].
    rewrite (command_ticker w t name json_out tr p Ht Hp), Hn.
    apply presents_after. right. split; [reflexivity|].
    split; [reflexivity|exact (truthy_str t Ht)].
Qed.

Lemma display_name_precedence_witness :
  (exists tr p,
     get_current_price (market (response 200 apple_body) tk_fast) (PStr "AAPL")
       = (tr, Ok p) /\
     presents (market (response 200 apple_body) tk_fast) false
       ([search_request "Apple"] ++ tr) (PStr "AAPL") (PStr "Apple Inc.") p
       (search_command (market (response 200 apple_body) tk_fast)
          None (Some "Apple") false)) /\
  (exists tr p,
     get_current_price (offline tk_fast) (PStr "AAPL") = (tr, Ok p) /\
     presents (offline tk_fast) true tr (PStr "AAPL") (PStr "Apple") p
       (search_command (offline tk_fast) (Some "AAPL") (Some "Apple") true)) /\
  (exists tr p,
     get_current_price (offline tk_fast) (PStr "AAPL") = (tr, Ok p) /\
     presents (offline tk_fast) false tr (PStr "AAPL") (PStr "AAPL") p
       (search_command (offline tk_fast) (Some "AAPL") None false)).
Proof.
  split; [|split].
  - destruct (display_name_precedence (market (response 200 apple_body) tk_fast)
                None (Some "Apple") false) as (H & _ & _).
    apply (H "Apple" [search_request "Apple"] (match_of apple_quote));
      try reflexivity.
    + discriminate.
    + right. split; reflexivity.
  - destruct (display_name_precedence (offline tk_fast)
                (Some "AAPL") (Some "Apple") true) as (_ & H & _).
    apply (H "AAPL" "Apple"); try reflexivity; discriminate.
  - destruct (display_name_precedence (offline tk_fast)
                (Some "AAPL") None false) as (_ & _ & H).
    apply (H "AAPL"); try reflexivity. discriminate.
Defined.

(** C9. With both a ticker and a name the resolver is not called: the
    price is fetched for the ticker as supplied, and the result presented
    carries the supplied ticker and, as its name, the supplied name. *)
Theorem ticker_and_name_skip_resolver (w : world) (t n : string)
    (json_out : bool) :
  t <> "" -> n <> "" ->
  let run := search_command w (Some t) (Some n) json_out in
  exists tr p,
    get_current_price w (PStr t) = (tr, Ok p) /\
    presents w json_out tr (PStr t) (PStr n) p run /\
    forallb (fun e => negb (is_resolver_event e)) (trace run) = true.
Proof.
  intros Ht Hn. cbv zeta.
  destruct (price_returns w (PStr t)) as (tr & p & Hp).
  exists tr, p. split; [exact Hp|].
  rewrite (command_ticker w t (Some n) json_out tr p Ht Hp).
  cbn [of_option]. rewrite (truthy_str n Hn). split.
  - apply presents_after. right. split; [reflexivity|].
    split; [reflexivity|exact (truthy_str t Ht)].
  - unfold after, present, trace. cbn [fst cell_ok andb orb].
    unfold py_or. rewrite (truthy_str t Ht), orb_true_r.
    rewrite forallb_app. apply andb_true_iff. split.
    + apply price_events_not_resolver.
      pose proof (price_events w (PStr t)) as H. rewrite Hp in H. exact H.
    + destruct json_out; reflexivity.
Qed.

Lemma ticker_and_name_skip_resolver_witness :
  exists tr p,
    get_current_price (market (response 200 apple_body) tk_daily) (PStr "MSFT")
      = (tr, Ok p) /\
    presents (market (response 200 apple_body) tk_daily) true tr
      (PStr "MSFT") (PStr "Apple") p
      (search_command (market (response 200 apple_body) tk_daily)
         (Some "MSFT") (Some "Apple") true) /\
    forallb (fun e => negb (is_resolver_event e))
      (trace (search_command (market (response 200 apple_body) tk_daily)
                (Some "MSFT") (Some "Apple") true)) = true.
Proof.
  apply (ticker_and_name_skip_resolver
           (market (response 200 apple_body) tk_daily) "MSFT" "Apple" true);
    discriminate.
Defined.

(** C10. An empty string for [--ticker] or [--name] counts as an absent
    option: with both empty or missing the command exits with code 2
    after the usage line alone, and a run with an empty ticker is the run
    without a ticker, so a non-empty name is sent to the resolver. *)
Theorem empty_option_is_absent (w : world) (json_out : bool) :
  let usage := ([EvEcho usage_message], Raise (TyperExit 2)) in
  (search_command w None None json_out = usage /\
   search_command w (Some "") None json_out = usage /\
   search_command w None (Some "") json_out = usage /\
   search_command w (Some "") (Some "") json_out = usage /\
   exit_code usage = 2) /\
  (forall name,
     search_command w (Some "") name json_out =
     search_command w None name json_out) /\
  (forall n, n <> "" ->
     exists tr,
       trace (search_command w (Some "") (Some n) json_out) =
         search_request n :: tr).
Proof.
  cbv zeta. split; [repeat split|]. split.
  - intros [n|]; [|reflexivity].
    destruct n as [|c n]; reflexivity.
  - intros n Hn.
    destruct (lookup_one_request w n) as [r Hl].
    destruct (truthy (dict_get "symbol" r)) eqn:Hs.
    + destruct (price_returns w (dict_get "symbol" r)) as (tr & p & Hp).
      rewrite (command_resolved w (Some "") n json_out _ r tr p
                 eq_refl Hn Hl Hs Hp).
      eexists. reflexivity.
    + rewrite (command_unresolved w (Some "") n json_out _ r
                 eq_refl Hn Hl Hs).
      eexists. reflexivity.
Qed.

Lemma empty_option_is_absent_witness :
  exists tr,
    trace (search_command (market (response 200 apple_body) tk_fast)
             (Some "") (Some "Apple") true) =
      search_request "Apple" :: tr.
Proof.
  destruct (empty_option_is_absent (market (response 200 apple_body) tk_fast)
              true) as (_ & _ & H).
  apply (H "Apple"). discriminate.
Defined.

(** * Further properties of the code *)

(** ** The price fetcher *)

Lemma last_close_not_nan df c :
  last_close df = Some c -> PyFloat.is_nan c = false.
Proof.
  unfold last_close. intros H.
  assert (Hin : In c (rev (dropna (Close df)))).
  { destruct (rev (dropna (Close df))) as [|x l]; [discriminate H|].
    injection H as ->. left. reflexivity. }
  apply in_rev in Hin. unfold dropna in Hin. apply filter_In in Hin.
  destruct Hin as [_ Hc]. apply negb_true_iff in Hc. exact Hc.
Qed.

Lemma dropna_all_nan l :
  forallb PyFloat.is_nan l = true -> dropna l = [].
Proof.
  induction l as [|x l IH]; [reflexivity|]. simpl.
  intros H. apply andb_true_iff in H. destruct H as [Hx Hl].
  rewrite Hx. simpl. exact (IH Hl).
Qed.

Lemma dropna_app l l' : dropna (l ++ l') = (dropna l ++ dropna l')%list.
Proof. apply filter_app. Qed.

(** The last close that is not missing, when only missing ones follow. *)
Lemma last_close_skips_trailing df l x nans :
  Close df = (l ++ x :: nans)%list ->
  PyFloat.is_nan x = false ->
  forallb PyFloat.is_nan nans = true ->
  last_close df = Some x /\ empty df = false.
Proof.
  intros Hc Hx Hn. unfold last_close, empty. rewrite Hc. split.
  - rewrite dropna_app. simpl. rewrite Hx. simpl.
    rewrite (dropna_all_nan nans Hn), rev_app_distr. reflexivity.
  - destruct l; reflexivity.
Qed.

(** Every run of the price fetcher is one of six. *)
Lemma price_run_cases w ticker :
  (yf_Ticker w ticker = None /\
   get_current_price w ticker = ([EvTicker ticker], Ok None)) \/
  exists t, yf_Ticker w ticker = Some t /\
    ((exists p, fast_value t = Some p /\
        get_current_price w ticker =
          ([EvTicker ticker; EvFastInfo], Ok (Some p))) \/
     (fast_value t = None /\ history t "1d" "1m" = HistoryRaises /\
        get_current_price w ticker =
          ([EvTicker ticker; EvFastInfo; EvHistory "1d" "1m"], Ok None)) \/
     (exists df, fast_value t = None /\
        history t "1d" "1m" = HistoryIs df /\ empty df = false /\
        get_current_price w ticker =
          ([EvTicker ticker; EvFastInfo; EvHistory "1d" "1m"],
           Ok (last_close df))) \/
     (exists df, fast_value t = None /\
        history t "1d" "1m" = HistoryIs df /\ empty df = true /\
        history t "1d" "1d" = HistoryRaises /\
        get_current_price w ticker = (price_calls ticker, Ok None)) \/
     (exists df df', fast_value t = None /\
        history t "1d" "1m" = HistoryIs df /\ empty df = true /\
        history t "1d" "1d" = HistoryIs df' /\
        get_current_price w ticker =
          (price_calls ticker, Ok (last_close df')))).
Proof.
  destruct (yf_Ticker w ticker) as [t|] eqn:Ht;
    [right; exists t; split; [reflexivity|]
    |left; split; [reflexivity|exact (price_ticker_raises w ticker Ht)]].
  destruct (fast_value t) as [p|] eqn:Hf.
  { left. exists p. split; [reflexivity|]. exact (price_fast w ticker t Ht p Hf). }
  right. destruct (history t "1d" "1m") as [|df] eqn:Hm.
  { left. repeat split. exact (price_minute_raises w ticker t Ht Hf Hm). }
  right. destruct (empty df) eqn:He.
  2:{ left. exists df. repeat split; try assumption.
      exact (price_minute w ticker t Ht df Hf Hm He). }
  right. destruct (history t "1d" "1d") as [|df'] eqn:Hd.
  - left. exists df. repeat split; try assumption.
    exact (price_daily_raises w ticker t Ht df Hf Hm He Hd).
  - right. exists df, df'. repeat split; try assumption.
    exact (price_daily w ticker t Ht df df' Hf Hm He Hd).
Qed.

Lemma price_trace_prefix w ticker :
  exists rest,
    trace (get_current_price w ticker) <> [] /\
    price_calls ticker = (trace (get_current_price w ticker) ++ rest)%list.
Proof.
  destruct (price_run_cases w ticker)
    as [[_ E] | (t & _ & [(p & _ & E) | [(_ & _ & E) | [(df & _ & _ & _ & E)
        | [(df & _ & _ & _ & _ & E) | (df & df' & _ & _ & _ & _ & E)]]]])];
    rewrite E; unfold trace, price_calls; cbn [fst];
    eexists; (split; [discriminate|]);
    first [ reflexivity | symmetry; apply app_nil_r ].
Qed.

(** X1. The price fetcher makes its external calls in one fixed order and
    each at most once: its trace is a non-empty prefix of building the
    handle, reading the fast info, the minute history, the daily
    history. *)
Theorem price_calls_in_order (w : world) (ticker : pyval) :
  exists rest,
    trace (get_current_price w ticker) <> [] /\
    price_calls ticker = (trace (get_current_price w ticker) ++ rest)%list.
Proof. exact (price_trace_prefix w ticker). Qed.

(** X2. A price that comes from a history step is never NaN: whenever the
    fetcher has asked for history and returns a price, that price is not
    a missing value. *)
Theorem history_price_not_nan (w : world) (ticker : pyval)
    (tr : list event) (p : PyFloat.float) :
  get_current_price w ticker = (tr, Ok (Some p)) ->
  In (EvHistory "1d" "1m") tr ->
  PyFloat.is_nan p = false.
Proof.
  intros Hrun Hin.
  destruct (price_run_cases w ticker)
    as [[_ E] | (t & _ & [(q & _ & E) | [(_ & _ & E) | [(df & _ & _ & _ & E)
        | [(df & _ & _ & _ & _ & E) | (df & df' & _ & _ & _ & _ & E)]]]])];
    rewrite E in Hrun; injection Hrun as <- Hp; try discriminate Hp.
  - simpl in Hin. destruct Hin as [H | [H | []]]; discriminate H.
  - exact (last_close_not_nan df p Hp).
  - exact (last_close_not_nan df' p Hp).
Qed.

Lemma history_price_not_nan_witness :
  get_current_price (offline tk_minute) (PStr "AAPL") =
    ([EvTicker (PStr "AAPL"); EvFastInfo; EvHistory "1d" "1m"], Ok (Some f99)) /\
  PyFloat.is_nan f99 = false.
Proof.
  split; [reflexivity|].
  apply (history_price_not_nan (offline tk_minute) (PStr "AAPL")
           [EvTicker (PStr "AAPL"); EvFastInfo; EvHistory "1d" "1m"] f99).
  - reflexivity.
  - simpl. right. right. left. reflexivity.
Defined.

(** X3. A fast price that is NaN counts as a price: the fetcher returns it
    without asking for history, and the command in JSON mode then reports
    a NaN price with success true and exits with code 0. *)
Theorem nan_fast_price_is_reported (w : world) (s : string) (t : TickerObj)
    (fi : list (string * fast_field)) :
  s <> "" ->
  yf_Ticker w (PStr s) = Some t ->
  fast_info t = FastInfoIs fi ->
  fi_assoc "last_price" fi = Some (FieldIs (Some S754_nan)) ->
  get_current_price w (PStr s) =
    ([EvTicker (PStr s); EvFastInfo], Ok (Some S754_nan)) /\
  search_command w (Some s) None true =
    ([EvTicker (PStr s); EvFastInfo;
      EvEcho (Json.dumps_indent2
                (PDict [("ticker", PStr s); ("name", PStr s);
                        ("price", PFloat S754_nan);
                        ("success", PBool true)]))],
     Raise (TyperExit 0)).
Proof.
  intros Hs Ht Hfi Hlp.
  assert (Hf : fast_value t = Some S754_nan).
  { unfold fast_value. rewrite Hfi, Hlp. reflexivity. }
  pose proof (price_fast w (PStr s) t Ht S754_nan Hf) as Hp.
  split; [exact Hp|].
  rewrite (command_ticker w s None true _ _ Hs Hp). reflexivity.
Qed.

Lemma nan_fast_price_is_reported_witness :
  search_command
    (offline (ticker_with (fast_quote S754_nan) (frame [f99]) (frame [f99])))
    (Some "AAPL") None true =
    ([EvTicker (PStr "AAPL"); EvFastInfo;
      EvEcho (Json.dumps_indent2
                (PDict [("ticker", PStr "AAPL"); ("name", PStr "AAPL");
                        ("price", PFloat S754_nan);
                        ("success", PBool true)]))],
     Raise (TyperExit 0)).
Proof.
  apply (nan_fast_price_is_reported
           (offline (ticker_with (fast_quote S754_nan) (frame [f99]) (frame [f99])))
           "AAPL"
           (ticker_with (fast_quote S754_nan) (frame [f99]) (frame [f99]))
           [("last_price", FieldIs (Some S754_nan))]).
  - discriminate.
  - reflexivity.
  - reflexivity.
  - reflexivity.
Defined.

(** X4. A minute frame that has rows but only missing closes ends the
    chain: the fetcher returns [None] and the daily history is not
    requested. *)
Theorem minute_frame_all_missing (w : world) (ticker : pyval) (t : TickerObj)
    (df : DataFrame) :
  yf_Ticker w ticker = Some t ->
  fast_value t = None ->
  history t "1d" "1m" = HistoryIs df ->
  empty df = false ->
  forallb PyFloat.is_nan (Close df) = true ->
  get_current_price w ticker =
    ([EvTicker ticker; EvFastInfo; EvHistory "1d" "1m"], Ok None).
Proof.
  intros Ht Hf Hm He Hn.
  rewrite (price_minute w ticker t Ht df Hf Hm He).
  unfold last_close. rewrite (dropna_all_nan _ Hn). reflexivity.
Qed.

Lemma minute_frame_all_missing_witness :
  get_current_price (offline tk_missing_closes) (PStr "AAPL") =
    ([EvTicker (PStr "AAPL"); EvFastInfo; EvHistory "1d" "1m"], Ok None).
Proof.
  apply (minute_frame_all_missing (offline tk_missing_closes) (PStr "AAPL")
           tk_missing_closes {| Close := [S754_nan] |}); reflexivity.
Defined.

(** X5. Missing closes at the end of a frame are skipped: when the closes
    of the frame read are some values, then a close [x] that is not
    missing, then only missing ones, the price is [x].  This holds for
    the minute frame, and for the daily frame when the minute frame has
    no rows. *)
Theorem trailing_missing_closes_skipped (w : world) (ticker : pyval)
    (t : TickerObj) (l nans : list PyFloat.float) (x : PyFloat.float) :
  yf_Ticker w ticker = Some t ->
  fast_value t = None ->
  PyFloat.is_nan x = false ->
  forallb PyFloat.is_nan nans = true ->
  (forall df, history t "1d" "1m" = HistoryIs df ->
     Close df = (l ++ x :: nans)%list ->
     get_current_price w ticker =
       ([EvTicker ticker; EvFastInfo; EvHistory "1d" "1m"], Ok (Some x))) /\
  (forall df df', history t "1d" "1m" = HistoryIs df -> empty df = true ->
     history t "1d" "1d" = HistoryIs df' ->
     Close df' = (l ++ x :: nans)%list ->
     get_current_price w ticker = (price_calls ticker, Ok (Some x))).
Proof.
  intros Ht Hf Hx Hn. split.
  - intros df Hm Hc.
    destruct (last_close_skips_trailing df l x nans Hc Hx Hn) as [Hl He].
    rewrite (price_minute w ticker t Ht df Hf Hm He), Hl. reflexivity.
  - intros df df' Hm He Hd Hc.
    destruct (last_close_skips_trailing df' l x nans Hc Hx Hn) as [Hl _].
    rewrite (price_daily w ticker t Ht df df' Hf Hm He Hd), Hl. reflexivity.
Qed.

Lemma trailing_missing_closes_skipped_witness :
  get_current_price (offline tk_minute) (PStr "AAPL") =
    ([EvTicker (PStr "AAPL"); EvFastInfo; EvHistory "1d" "1m"], Ok (Some f99)).
Proof.
  destruct (trailing_missing_closes_skipped (offline tk_minute) (PStr "AAPL")
              tk_minute [f150] [S754_nan] f99
              eq_refl eq_refl eq_refl eq_refl) as [H _].
  apply (H {| Close := [f150; f99; S754_nan] |}); reflexivity.
Defined.

(** X6. The daily history is requested exactly when the handle is built,
    the fast price yields nothing and the minute history returns a frame
    without rows. *)
Theorem daily_history_requested_iff (w : world) (ticker : pyval) :
  In (EvHistory "1d" "1d") (trace (get_current_price w ticker)) <->
  exists t df,
    yf_Ticker w ticker = Some t /\ fast_value t = None /\
    history t "1d" "1m" = HistoryIs df /\ empty df = true.
Proof.
  split.
  - intros Hin.
    destruct (price_run_cases w ticker)
      as [[_ E] | (t & Ht & [(p & _ & E) | [(_ & _ & E)
          | [(df & _ & _ & _ & E)
          | [(df & Hf & Hm & He & _ & E)
            | (df & df' & Hf & Hm & He & _ & E)]]]])];
      rewrite E in Hin; unfold trace in Hin; cbn [fst] in Hin;
      try (exists t, df; repeat split; assumption);
      simpl in Hin;
      repeat (destruct Hin as [Hin | Hin]; [discriminate Hin|]);
      contradiction.
  - intros (t & df & Ht & Hf & Hm & He).
    destruct (history t "1d" "1d") as [|df'] eqn:Hd.
    + rewrite (price_daily_raises w ticker t Ht df Hf Hm He Hd).
      simpl. auto.
    + rewrite (price_daily w ticker t Ht df df' Hf Hm He Hd).
      simpl. auto.
Qed.

Lemma daily_history_requested_iff_witness :
  In (EvHistory "1d" "1d")
    (trace (get_current_price (offline tk_empty) (PStr "AAPL"))).
Proof.
  apply (proj2 (daily_history_requested_iff (offline tk_empty) (PStr "AAPL"))).
  exists tk_empty, {| Close := [] |}. repeat split.
Defined.

(** ** The resolver *)

(** X7. What the resolver returns is [None] or a [dict] with exactly the
    keys symbol, name, type, exchange, score, in this order; and in such a
    match a truthy symbol comes with a truthy name. *)
Theorem lookup_result_shape (w : world) (name : string) :
  lookup_ticker_by_name w name = ([search_request name], Ok PNone) \/
  exists sym nm ty ex sc,
    lookup_ticker_by_name w name =
      ([search_request name],
       Ok (PDict [("symbol", sym); ("name", nm); ("type", ty);
                  ("exchange", ex); ("score", sc)])) /\
    (truthy sym = true -> truthy nm = true).
Proof.
  destruct (lookup_shape w name) as [E | [q E]]; [left; exact E|].
  right. unfold match_of in E. do 5 eexists. split; [exact E|].
  exact (match_of_name_truthy q).
Qed.

(** ** The command *)

(** The presentation when ticker and name come from the command line. *)
Lemma present_cli w j t name p :
  t <> "" ->
  present w j (PStr t)
    (if truthy (of_option name) then of_option name else PStr t) p =
    ([presented j (PStr t)
        (if truthy (of_option name) then of_option name else PStr t) p],
     finished w j (PStr t)
       (if truthy (of_option name) then of_option name else PStr t) p).
Proof.
  intros Ht. apply present_text. right. unfold py_or.
  rewrite (truthy_str t Ht).
  destruct name as [n|]; [destruct (truthy (of_option (Some n)))|];
    split; reflexivity.
Qed.

(** The events of a run: at most one search request, for the supplied
    name; then the calls of the price fetcher; then at most one output.
    The first two parts do not depend on the output mode. *)
Lemma command_trace w ticker name :
  exists pre tr,
    (pre = [] \/ exists n, name = Some n /\ pre = [search_request n]) /\
    (tr = [] \/ exists t, truthy t = true /\
                          tr = trace (get_current_price w t)) /\
    forall j, exists out,
      trace (search_command w ticker name j) = (pre ++ tr ++ out)%list /\
      (out = [] \/ exists e, out = [e] /\ is_output_event e = true).
Proof.
  destruct (truthy (of_option ticker)) eqn:Ht.
  - apply truthy_option in Ht. destruct Ht as (t & -> & Ht).
    destruct (price_returns w (PStr t)) as (tr & p & Hp).
    exists [], tr. split; [left; reflexivity|]. split.
    { right. exists (PStr t). rewrite Hp. split; [exact (truthy_str t Ht)|].
      reflexivity. }
    intros j.
    rewrite (command_ticker w t name j tr p Ht Hp), (present_cli w j t name p Ht).
    eexists. split; [reflexivity|]. right. eexists. split; [reflexivity|].
    destruct j; reflexivity.
  - destruct (truthy (of_option name)) eqn:Hn.
    + apply truthy_option in Hn. destruct Hn as (n & -> & Hn).
      destruct (lookup_one_request w n) as [r Hl].
      destruct (truthy (dict_get "symbol" r)) eqn:Hs.
      * destruct (price_returns w (dict_get "symbol" r)) as (tr & p & Hp).
        exists [search_request n], tr.
        split; [right; exists n; split; reflexivity|]. split.
        { right. exists (dict_get "symbol" r). rewrite Hp.
          split; [exact Hs|reflexivity]. }
        intros j.
        rewrite (command_resolved w ticker n j _ r tr p Ht Hn Hl Hs Hp).
        exists (trace (present w j (dict_get "symbol" r) (dict_get "name" r) p)).
        split; [unfold after, trace; cbn [fst]; reflexivity|].
        unfold present.
        destruct (j || _); [|left; reflexivity].
        right. eexists. split; [reflexivity|]. destruct j; reflexivity.
      * exists [search_request n], [].
        split; [right; exists n; split; reflexivity|].
        split; [left; reflexivity|]. intros j.
        rewrite (command_unresolved w ticker n j _ r Ht Hn Hl Hs).
        eexists. split; [reflexivity|]. right. eexists.
        split; reflexivity.
    + exists [], []. split; [left; reflexivity|].
      split; [left; reflexivity|]. intros j.
      rewrite (command_usage w ticker name j Ht Hn).
      eexists. split; [reflexivity|]. right. eexists. split; reflexivity.
Qed.

Lemma output_not_network out :
  (out = [] \/ exists e, out = [e] /\ is_output_event e = true) ->
  filter is_network_event out = [].
Proof.
  intros [-> | (e & -> & He)]; [reflexivity|].
  destruct e; try discriminate He; reflexivity.
Qed.

Lemma ticker_trace_exit w t name :
  t <> "" ->
  exit_code (search_command w (Some t) name true) = 0.
Proof.
  intros Ht. destruct (price_returns w (PStr t)) as (tr & p & Hp).
  rewrite (command_ticker w t name true tr p Ht Hp). reflexivity.
Qed.

(** X8. With a non-empty ticker on the command line the command never
    calls the resolver.  With [--json] it exits with code 0 whatever the
    network answers and for every name option.  Without [--json] it
    always reaches the call of [console.print], and exits with code 0
    exactly when that call returns. *)
Theorem ticker_run_outcome (w : world) (t : string) (name : option string)
    (json_out : bool) :
  t <> "" ->
  let run := search_command w (Some t) name json_out in
  (json_out = true -> exit_code run = 0) /\
  (json_out = false ->
     exists tb, In (EvConsolePrint tb) (trace run) /\
                (exit_code run = 0 <-> console_print w tb = PrintReturns)) /\
  forallb (fun e => negb (is_resolver_event e)) (trace run) = true.
Proof.
  intros Ht. cbv zeta. destruct (price_returns w (PStr t)) as (tr & p & Hp).
  rewrite (command_ticker w t name json_out tr p Ht Hp),
    (present_cli w json_out t name p Ht).
  unfold after, trace, outcome, exit_code. cbn [fst snd].
  split; [intros ->; reflexivity|]. split.
  - intros ->. eexists. split.
    + apply in_or_app. right. left. reflexivity.
    + unfold finished, print_result, outcome. cbn [snd].
      destruct (console_print w _); split; intros H;
        try reflexivity; discriminate H.
  - rewrite forallb_app. apply andb_true_iff. split.
    + apply price_events_not_resolver.
      pose proof (price_events w (PStr t)) as H. rewrite Hp in H. exact H.
    + destruct json_out; reflexivity.
Qed.

Lemma ticker_run_outcome_witness :
  exit_code (search_command no_network (Some "AAPL") (Some "") true) = 0 /\
  exit_code (search_command no_network (Some "AAPL") None false) = 0 /\
  exit_code (search_command (with_failing_console no_network)
               (Some "AAPL") None false) <> 0.
Proof.
  split; [|split].
  - apply (ticker_run_outcome no_network "AAPL" (Some "") true).
    + discriminate.
    + reflexivity.
  - destruct (ticker_run_outcome no_network "AAPL" None false
                ltac:(discriminate)) as (_ & H & _).
    destruct (H eq_refl) as (tb & _ & Hiff). apply (proj2 Hiff). reflexivity.
  - destruct (ticker_run_outcome (with_failing_console no_network) "AAPL" None
                false ltac:(discriminate)) as (_ & H & _).
    destruct (H eq_refl) as (tb & _ & Hiff). intros H0.
    apply (proj1 Hiff) in H0. discriminate H0.
Defined.

(** X9. The events of every run are, in this order: at most one search
    request, sent for the name supplied; the calls of one run of the
    price fetcher, if any; and at most one output, as the last event. *)
Theorem run_structure (w : world) (ticker name : option string)
    (json_out : bool) :
  exists pre tr out,
    trace (search_command w ticker name json_out) = (pre ++ tr ++ out)%list /\
    (pre = [] \/ exists n, name = Some n /\ pre = [search_request n]) /\
    (tr = [] \/ exists t, tr = trace (get_current_price w t)) /\
    (out = [] \/ exists e, out = [e] /\ is_output_event e = true).
Proof.
  destruct (command_trace w ticker name) as (pre & tr & Hpre & Htr & H).
  destruct (H json_out) as (out & E & Hout).
  exists pre, tr, out. repeat split; try assumption.
  destruct Htr as [-> | (t & _ & ->)]; [left; reflexivity|].
  right. exists t. reflexivity.
Qed.

(** X10. The output mode changes only the presentation: with and without
    [--json] the command makes the same network calls in the same
    order. *)
Theorem json_flag_keeps_network_calls (w : world)
    (ticker name : option string) :
  filter is_network_event (trace (search_command w ticker name true)) =
  filter is_network_event (trace (search_command w ticker name false)).
Proof.
  destruct (command_trace w ticker name) as (pre & tr & _ & _ & H).
  destruct (H true) as (out1 & E1 & H1).
  destruct (H false) as (out2 & E2 & H2).
  rewrite E1, E2, !filter_app.
  rewrite (output_not_network out1 H1), (output_not_network out2 H2).
  reflexivity.
Qed.

Lemma price_ticker_event w ticker v :
  In (EvTicker v) (trace (get_current_price w ticker)) -> v = ticker.
Proof.
  intros Hin. destruct (price_trace_prefix w ticker) as (rest & _ & E).
  assert (H : In (EvTicker v) (price_calls ticker)).
  { rewrite E. apply in_or_app. left. exact Hin. }
  simpl in H. destruct H as [H | [H | [H | [H | []]]]]; try discriminate H.
  injection H as ->. reflexivity.
Qed.

(** X11. The price fetcher is never called with an empty or missing
    ticker: every handle the command builds is for a truthy symbol. *)
Theorem fetched_ticker_is_truthy (w : world) (ticker name : option string)
    (json_out : bool) (v : pyval) :
  In (EvTicker v) (trace (search_command w ticker name json_out)) ->
  truthy v = true.
Proof.
  destruct (command_trace w ticker name) as (pre & tr & Hpre & Htr & H).
  destruct (H json_out) as (out & E & Hout). rewrite E. intros Hin.
  apply in_app_or in Hin. destruct Hin as [Hin | Hin].
  { destruct Hpre as [-> | (n & _ & ->)]; [contradiction|].
    destruct Hin as [Hin | []]. discriminate Hin. }
  apply in_app_or in Hin. destruct Hin as [Hin | Hin].
  - destruct Htr as [-> | (t & Ht & ->)]; [contradiction|].
    rewrite (price_ticker_event w t v Hin). exact Ht.
  - destruct Hout as [-> | (e & -> & He)]; [contradiction|].
    destruct Hin as [Hin | []]. rewrite Hin in He. discriminate He.
Qed.

Lemma fetched_ticker_is_truthy_witness :
  In (EvTicker (PStr "AAPL"))
    (trace (search_command (market (response 200 apple_body) tk_fast)
              None (Some "Apple") true)) /\
  truthy (PStr "AAPL") = true.
Proof.
  assert (H : In (EvTicker (PStr "AAPL"))
                (trace (search_command (market (response 200 apple_body) tk_fast)
                          None (Some "Apple") true))).
  { simpl. right. left. reflexivity. }
  split; [exact H|].
  exact (fetched_ticker_is_truthy (market (response 200 apple_body) tk_fast)
           None (Some "Apple") true (PStr "AAPL") H).
Defined.

(** X12. Errors are reported the same way in both output modes: a run
    with [--json] that exits with a non-zero code is, event for event,
    the run without [--json], so its output is the plain message and no
    JSON. *)
Theorem json_errors_are_plain (w : world) (ticker name : option string) :
  exit_code (search_command w ticker name true) <> 0 ->
  search_command w ticker name true = search_command w ticker name false.
Proof.
  intros Hexit.
  destruct (truthy (of_option ticker)) eqn:Ht.
  - apply truthy_option in Ht. destruct Ht as (t & -> & Ht).
    exfalso. exact (Hexit (ticker_trace_exit w t name Ht)).
  - destruct (truthy (of_option name)) eqn:Hn.
    + apply truthy_option in Hn. destruct Hn as (n & -> & Hn).
      destruct (lookup_one_request w n) as [r Hl].
      destruct (truthy (dict_get "symbol" r)) eqn:Hs.
      * exfalso. apply Hexit.
        destruct (price_returns w (dict_get "symbol" r)) as (tr & p & Hp).
        rewrite (command_resolved w ticker n true _ r tr p Ht Hn Hl Hs Hp).
        reflexivity.
      * rewrite (command_unresolved w ticker n true _ r Ht Hn Hl Hs).
        rewrite (command_unresolved w ticker n false _ r Ht Hn Hl Hs).
        reflexivity.
    + rewrite !(command_usage w ticker name _ Ht Hn). reflexivity.
Qed.

Lemma json_errors_are_plain_witness :
  search_command no_network None (Some "Apple") true =
  search_command no_network None (Some "Apple") false.
Proof.
  apply (json_errors_are_plain no_network None (Some "Apple")).
  discriminate.
Defined.

(** X13. In JSON mode the command always ends through [typer.Exit], never
    with a Python exception, and its exit code is: 0 with a non-empty
    ticker; else 2 without a non-empty name; else 1 when the resolver's
    result has no truthy symbol, and 0 when it has one. *)
Theorem json_exit_code_table (w : world) (ticker name : option string) :
  outcome (search_command w ticker name true) =
    Raise (TyperExit (json_exit_code w ticker name)) /\
  exit_code (search_command w ticker name true) = json_exit_code w ticker name.
Proof.
  assert (H : outcome (search_command w ticker name true) =
              Raise (TyperExit (json_exit_code w ticker name))).
  { unfold json_exit_code.
    destruct (truthy (of_option ticker)) eqn:Ht.
    - apply truthy_option in Ht. destruct Ht as (t & -> & Ht).
      destruct (price_returns w (PStr t)) as (tr & p & Hp).
      rewrite (command_ticker w t name true tr p Ht Hp). reflexivity.
    - destruct name as [n|]; [|rewrite (command_usage w ticker None true Ht eq_refl);
                                reflexivity].
      destruct (truthy (PStr n)) eqn:Hn;
        [|rewrite (command_usage w ticker (Some n) true Ht Hn); reflexivity].
      assert (Hn' : n <> "") by (intros ->; discriminate Hn).
      destruct (lookup_one_request w n) as [r Hl].
      unfold resolved_value. rewrite Hl. cbn [outcome snd].
      destruct (truthy (dict_get "symbol" r)) eqn:Hs.
      + destruct (price_returns w (dict_get "symbol" r)) as (tr & p & Hp).
        rewrite (command_resolved w ticker n true _ r tr p Ht Hn' Hl Hs Hp).
        reflexivity.
      + rewrite (command_unresolved w ticker n true _ r Ht Hn' Hl Hs).
        reflexivity. }
  split; [exact H|]. unfold exit_code. rewrite H. reflexivity.
Qed.
